(** * LODCM: large offset dual-crystal monochromator

    A shallow embedding of [pcdsdevices/lodcm.py]: the beam destination, the
    diagnostics check, the removal of the diagnostics, the per-tower and
    cross-tower material and reflection queries and the energy readback of
    the [LODCM] device, with the properties the specification states about
    them; then the motor table and the constructor's prefixes, the filter
    foil, the geometry calculation and the head and rows of the status
    report, with what the code shows of them. *)

From Stdlib Require Import String Ascii List Bool ZArith Lia Floats DecimalString.
Import ListNotations.

Local Open Scope string_scope.
Local Open Scope bool_scope.

(** ** Python values, exceptions and the error monad *)

(** The exceptions the module raises itself are all [ValueError]s, told apart
    by their message; [LibraryError] stands for whatever a collaborator
    outside this module (the crystallography calculations) raises. *)
Inductive exn : Type :=
| ValueError (msg : string)
| LibraryError (msg : string).

Inductive result (A : Type) : Type :=
| Ok (a : A)
| Raise (e : exn).

Arguments Ok {A} a.
Arguments Raise {A} e.

Definition bind {A B : Type} (m : result A) (k : A -> result B) : result B :=
  match m with
  | Ok a => k a
  | Raise e => Raise e
  end.

Declare Scope result_scope.
Delimit Scope result_scope with result.
Notation "x <- m ;; k" := (bind m (fun x => k))
  (at level 61, m at next level, right associativity) : result_scope.

(** What a reflection query hands back: [None], the tuple read from the
    register, or its rendering as a string. *)
Inductive pyval : Type :=
| PyNone
| PyStr (s : string)
| PyTuple (items : list Z).

Definition is_None (v : pyval) : bool :=
  match v with
  | PyNone => true
  | _ => false
  end.

(** [str(r)] of an integer: its decimal digits, with a leading minus sign
    when negative. *)
Definition str (r : Z) : string := NilEmpty.string_of_int (Z.to_int r).

(** [==] on a material label, which is a string or [None]. *)
Definition material_eqb (a b : option string) : bool :=
  match a, b with
  | None, None => true
  | Some x, Some y => String.eqb x y
  | _, _ => false
  end.

(** [x in l] on a list of strings. *)
Definition py_in (x : string) (l : list string) : bool :=
  existsb (String.eqb x) l.

(** [l.remove(x)]: drops the first item equal to [x]; a [ValueError] when
    there is none. *)
Fixpoint py_list_remove (x : string) (l : list string) : result (list string) :=
  match l with
  | [] => Raise (ValueError "list.remove(x): x not in list")
  | y :: t =>
      if String.eqb y x then Ok t
      else match py_list_remove x t with
           | Ok t' => Ok (y :: t')
           | Raise e => Raise e
           end
  end.

(** ** The state positioners *)

(** The state lists the positioner classes of this module declare. *)
Module H1N.
Definition states_list : list string := ["OUT"; "C"; "Si"].
Definition in_states : list string := ["C"; "Si"].
End H1N.

Module YagLom.
Definition states_list : list string := ["OUT"; "YAG"; "SLIT1"; "SLIT2"; "SLIT3"].
Definition in_states : list string := ["YAG"; "SLIT1"; "SLIT2"; "SLIT3"].
End YagLom.

Module Dectris.
Definition states_list : list string :=
  ["OUT"; "DECTRIS"; "SLIT1"; "SLIT2"; "SLIT3"; "OUTLOW"].
Definition in_states : list string := ["DECTRIS"; "SLIT1"; "SLIT2"; "SLIT3"].
Definition out_states : list string := ["OUT"; "OUTLOW"].
End Dectris.

Module Diode.
Definition states_list : list string := ["OUT"; "IN"].
End Diode.

(** [CHI1], [CHI2], [H2N], [Y1] and [Y2] declare the same lists. *)
Module TowerState.
Definition states_list : list string := ["C"; "Si"].
Definition in_states : list string := ["C"; "Si"].
Definition out_states : list string := [].
End TowerState.

(** [InOutRecordPositioner] is defined outside this module. The device reads
    three of its properties, which are taken here as the readback they give:
    the name of the current state and the two flags. *)
Record InOutRecordPositioner : Type := {
  position : string;
  inserted : bool;
  removed : bool
}.

(** The state positioners the device is composed of, by attribute name. *)
Inductive component : Type :=
| h1n | yag | dectris | diode | foil
| y1_state | chi1_state | h2n_state | y2_state | chi2_state.

Definition component_eqb (a b : component) : bool :=
  match a, b with
  | h1n, h1n | yag, yag | dectris, dectris | diode, diode | foil, foil
  | y1_state, y1_state | chi1_state, chi1_state | h2n_state, h2n_state
  | y2_state, y2_state | chi2_state, chi2_state => true
  | _, _ => false
  end.

(** ** The device *)

(** A snapshot of what the device reads: its state positioners, the four
    reflection registers, the angle readbacks ([wm()]) of the four theta
    pseudo positioners, and the two branch names given at construction. *)
Record LODCM : Type := {
  cpt : component -> InOutRecordPositioner;
  t1_c_ref : list Z;
  t1_si_ref : list Z;
  t2_c_ref : list Z;
  t2_si_ref : list Z;
  th1_si : float;
  th1_c : float;
  th2_si : float;
  th2_c : float;
  main_line : string;
  mono_line : string
}.

Notation "self .[ c ]" := (cpt self c) (at level 1, format "self .[ c ]").

(** The same device with the positioner [c] reading [p]. *)
Definition with_cpt (c : component) (p : InOutRecordPositioner) (self : LODCM) : LODCM :=
  {| cpt := fun c' => if component_eqb c' c then p else self.[c'];
     t1_c_ref := t1_c_ref self; t1_si_ref := t1_si_ref self;
     t2_c_ref := t2_c_ref self; t2_si_ref := t2_si_ref self;
     th1_si := th1_si self; th1_c := th1_c self;
     th2_si := th2_si self; th2_c := th2_c self;
     main_line := main_line self; mono_line := mono_line self |}.

Definition branches (self : LODCM) : list string :=
  [main_line self; mono_line self].

(** *** Diagnostics and destination *)

Definition _dia_clear (self : LODCM) : bool :=
  let yag_clear := removed self.[yag] in
  let dectris_clear := removed self.[dectris] in
  let foil_clear := removed self.[foil] in
  forallb (fun b => b) [yag_clear; dectris_clear; foil_clear].

Definition destination (self : LODCM) : result (list string) :=
  let dest :=
    if String.eqb (position self.[h1n]) "OUT" then [main_line self]
    else if String.eqb (position self.[h1n]) "Si" then [mono_line self]
    else if String.eqb (position self.[h1n]) "C" then [main_line self; mono_line self]
    else [] in
  if negb (_dia_clear self) && py_in (mono_line self) dest
  then py_list_remove (mono_line self) dest
  else Ok dest.

(** *** Tower state inference *)

Definition _is_tower_1_c (self : LODCM) : bool :=
  (String.eqb (position self.[h1n]) "C" || String.eqb (position self.[h1n]) "OUT")
  && String.eqb (position self.[y1_state]) "C"
  && String.eqb (position self.[chi1_state]) "C".

Definition _is_tower_1_si (self : LODCM) : bool :=
  (String.eqb (position self.[h1n]) "Si" || String.eqb (position self.[h1n]) "OUT")
  && String.eqb (position self.[y1_state]) "Si"
  && String.eqb (position self.[chi1_state]) "Si".

Definition _is_tower_2_c (self : LODCM) : bool :=
  String.eqb (position self.[h2n_state]) "C"
  && String.eqb (position self.[y2_state]) "C"
  && String.eqb (position self.[chi2_state]) "C".

Definition _is_tower_2_si (self : LODCM) : bool :=
  String.eqb (position self.[h2n_state]) "Si"
  && String.eqb (position self.[y2_state]) "Si"
  && String.eqb (position self.[chi2_state]) "Si".

(** *** Material *)

Definition _get_material (self : LODCM) (tower_num : Z) (check : bool)
  : result (option string) :=
  let fall_through :=
    if check then Raise (ValueError "Unable to determine crystal's material.")
    else Ok None in
  if Z.eqb tower_num 1 then
    if _is_tower_1_c self then Ok (Some "C")
    else if _is_tower_1_si self then Ok (Some "Si")
    else fall_through
  else if Z.eqb tower_num 2 then
    if _is_tower_2_c self then Ok (Some "C")
    else if _is_tower_2_si self then Ok (Some "Si")
    else fall_through
  else fall_through.

Definition get_first_tower_material (self : LODCM) (check : bool) :=
  _get_material self 1 check.

Definition get_second_tower_material (self : LODCM) (check : bool) :=
  _get_material self 2 check.

Definition get_material (self : LODCM) (check : bool) : result (option string) :=
  (m_1 <- get_first_tower_material self check ;;
   m_2 <- get_second_tower_material self check ;;
   if negb (material_eqb m_1 m_2)
   then Raise (ValueError "Invalid Crystal Arrangement.")
   else Ok m_1)%result.

(** *** Reflection *)

(** The loop that renders a tuple: [ref] starts as [None], takes [str(r)] at
    the first component and is extended by [str(r)] at each later one. *)
Definition render_step (ref : option string) (r : Z) : option string :=
  match ref with
  | None => Some (str r)
  | Some s => Some (s ++ str r)
  end.

Definition _get_reflection (self : LODCM) (tower_num : Z) (as_tuple check : bool)
  : result pyval :=
  let refs : option (list Z) :=
    if Z.eqb tower_num 1 then
      if _is_tower_1_c self then Some (t1_c_ref self)
      else if _is_tower_1_si self then Some (t1_si_ref self)
      else None
    else if Z.eqb tower_num 2 then
      if _is_tower_2_c self then Some (t2_c_ref self)
      else if _is_tower_2_si self then Some (t2_si_ref self)
      else None
    else None in
  if check && match refs with None => true | Some _ => false end
  then Raise (ValueError "Unable to determine the crystal reflection")
  else if as_tuple
  then Ok (match refs with None => PyNone | Some items => PyTuple items end)
  else
    let ref :=
      match refs with
      | Some items => fold_left render_step items None
      | None => None
      end in
    Ok (match ref with None => PyNone | Some s => PyStr s end).

Definition get_first_tower_reflection (self : LODCM) (as_tuple check : bool) :=
  _get_reflection self 1 as_tuple check.

Definition get_second_tower_reflection (self : LODCM) (as_tuple check : bool) :=
  _get_reflection self 2 as_tuple check.

(** *** Removing the diagnostics *)

(** A completion handle: the one that is done from the start, the handle of
    the [n]-th request made of the hardware, or the conjunction [&] of two
    handles. *)
Inductive Status : Type :=
| NullStatus
| MoveStatus (n : nat)
| AndStatus (left right : Status).

(** What the device asks of its collaborators, in the order it asks. *)
Inductive event : Type :=
| Remove (dia : component) (timeout : option float) (wait : bool)
| AddCallback (st : Status) (moved_cb : string)
| StatusWait (st : Status).

(** Commands run against the log of what has been asked so far. *)
Definition Dev (A : Type) : Type := list event -> A * list event.

Definition ret {A : Type} (a : A) : Dev A := fun log => (a, log).

Definition seq {A B : Type} (m : Dev A) (k : A -> Dev B) : Dev B :=
  fun log => let (a, log') := m log in k a log'.

Definition emit (e : event) : Dev unit := fun log => (tt, (log ++ [e])%list).

Declare Scope dev_scope.
Delimit Scope dev_scope with dev.
Notation "x <- m ;; k" := (seq m (fun x => k))
  (at level 61, m at next level, right associativity) : dev_scope.
Notation "m ;; k" := (seq m (fun _ => k))
  (at level 61, right associativity) : dev_scope.

(** [dia.remove(timeout=timeout, wait=wait)]: the request is recorded and
    its handle returned. *)
Definition remove (dia : component) (timeout : option float) (wait : bool)
  : Dev Status :=
  fun log => (MoveStatus (List.length log), (log ++ [Remove dia timeout wait])%list).

(** The body of the [for] loop of [remove_dia], run over the given devices. *)
Fixpoint remove_each (dias : list component) (timeout : option float)
  (status : Status) : Dev Status :=
  match dias with
  | [] => ret status
  | dia :: rest =>
      (st <- remove dia timeout false ;;
       remove_each rest timeout (AndStatus status st))%dev
  end.

Definition remove_dia (self : LODCM) (moved_cb : option string)
  (timeout : option float) (wait : bool) : Dev Status :=
  (status <- remove_each [yag; dectris; diode; foil] timeout NullStatus ;;
   match moved_cb with
   | Some cb => emit (AddCallback status cb)
   | None => ret tt
   end ;;
   (if wait then emit (StatusWait status) else ret tt) ;;
   ret status)%dev.

(** The devices a log sends a remove request to, in order. *)
Definition commanded (log : list event) : list component :=
  flat_map (fun e => match e with Remove dia _ _ => [dia] | _ => [] end) log.

(** *** Energy *)

Section Energy.

(** The numeric collaborators: numpy's [sin] and [deg2rad], and the
    crystallography calculations [d_space] (which rejects what it cannot
    work with) and [wavelength_to_energy]. *)
Variables np_sin np_deg2rad wavelength_to_energy : float -> float.
Variable d_space : option string -> pyval -> result float.

(** [%s] of a material label. *)
Definition show_material (material : option string) : string :=
  match material with
  | Some m => m
  | None => "None"
  end.

Definition get_first_tower_energy (self : LODCM) (material : option string)
  (reflection : pyval) : result float :=
  (reflection <- (if is_None reflection
                  then get_first_tower_reflection self true true
                  else Ok reflection) ;;
   material <- (match material with
                | None => get_first_tower_material self true
                | Some _ => Ok material
                end) ;;
   th <- (if material_eqb material (Some "Si") then Ok (th1_si self)
          else if material_eqb material (Some "C") then Ok (th1_c self)
          else Raise (ValueError ("Invalid material Id: " ++ show_material material))) ;;
   d <- d_space material reflection ;;
   let length := (2 * np_sin (np_deg2rad th) * d)%float in
   Ok (wavelength_to_energy length / 1000)%float)%result.

Definition get_second_tower_energy (self : LODCM) (material : option string)
  (reflection : pyval) : result float :=
  (reflection <- (if is_None reflection
                  then get_second_tower_reflection self true true
                  else Ok reflection) ;;
   material <- (match material with
                | None => get_second_tower_material self true
                | Some _ => Ok material
                end) ;;
   th <- (if material_eqb material (Some "Si") then Ok (th2_si self)
          else if material_eqb material (Some "C") then Ok (th2_c self)
          else Raise (ValueError ("Invalid material ID: " ++ show_material material))) ;;
   d <- d_space material reflection ;;
   let length := (2 * np_sin (np_deg2rad th) * d)%float in
   Ok (wavelength_to_energy length / 1000)%float)%result.

Definition get_energy (self : LODCM) (material : option string)
  (reflection : pyval) : result float :=
  get_first_tower_energy self material reflection.

End Energy.

(** ** Concrete devices *)

Definition at_state (s : string) (ins out : bool) : InOutRecordPositioner :=
  {| position := s; inserted := ins; removed := out |}.

(** A device whose lead positioner reads [lead], whose other tower
    positioners all read [m1] (tower 1) and [m2] (tower 2), and whose three
    blocking diagnostics are removed or not as the flags say. *)
Definition sim_lodcm (lead m1 m2 : string) (yag_out dectris_out foil_out : bool)
  (main mono : string) : LODCM :=
  {| cpt := fun c =>
       match c with
       | h1n => at_state lead (py_in lead H1N.in_states) (String.eqb lead "OUT")
       | yag => at_state (if yag_out then "OUT" else "YAG") (negb yag_out) yag_out
       | dectris =>
           at_state (if dectris_out then "OUT" else "DECTRIS")
                    (negb dectris_out) dectris_out
       | diode => at_state "IN" true false
       | foil => at_state (if foil_out then "OUT" else "Mo") (negb foil_out) foil_out
       | y1_state | chi1_state => at_state m1 (py_in m1 TowerState.in_states) false
       | h2n_state | y2_state | chi2_state =>
           at_state m2 (py_in m2 TowerState.in_states) false
       end;
     t1_c_ref := [1; 1; 1]%Z; t1_si_ref := [2; 2; 0]%Z;
     t2_c_ref := [1; 1; 1]%Z; t2_si_ref := [2; 2; 0]%Z;
     th1_si := 10%float; th1_c := 20%float;
     th2_si := 10%float; th2_c := 20%float;
     main_line := main; mono_line := mono |}.

(** The default device of the examples: branch names as the constructor
    defaults them. *)
Definition xpp_lodcm (lead m1 m2 : string) (yag_out dectris_out foil_out : bool) : LODCM :=
  sim_lodcm lead m1 m2 yag_out dectris_out foil_out "MAIN" "MONO".

(** ** The specification's vocabulary *)

(** The state list declared by the class of each state positioner ([Foil]
    extends its list per hutch when it is built; [OUT] is on it either way). *)
Definition class_states (c : component) : list string :=
  match c with
  | h1n => H1N.states_list
  | yag => YagLom.states_list
  | dectris => Dectris.states_list
  | diode => Diode.states_list
  | foil => ["OUT"]
  | y1_state | chi1_state | h2n_state | y2_state | chi2_state =>
      TowerState.states_list
  end.

(** The state positioners that make up each tower. *)
Definition tower (tower_num : Z) : list component :=
  if Z.eqb tower_num 1 then [h1n; y1_state; chi1_state]
  else if Z.eqb tower_num 2 then [h2n_state; y2_state; chi2_state]
  else [].

(** A constituent agrees with material [M] when it reports [M], or when it
    has an explicit [OUT] state and reports that. *)
Definition agrees (self : LODCM) (M : string) (c : component) : Prop :=
  position self.[c] = M \/
  (py_in "OUT" (class_states c) = true /\ position self.[c] = "OUT").

(** A tower is of material [M] when every constituent agrees with [M]. *)
Definition tower_is (self : LODCM) (tower_num : Z) (M : string) : Prop :=
  Forall (agrees self M) (tower tower_num).

(** The reflection register of a tower and material. *)
Definition reflection_register (self : LODCM) (tower_num : Z) (M : string) : list Z :=
  if Z.eqb tower_num 1 then
    if String.eqb M "C" then t1_c_ref self else t1_si_ref self
  else
    if String.eqb M "C" then t2_c_ref self else t2_si_ref self.

(** A state positioner is consulted by the diagnostics check when some
    change of its readback alone changes the answer. *)
Definition consulted_by_dia_clear (c : component) : Prop :=
  exists (self : LODCM) (p : InOutRecordPositioner),
    _dia_clear (with_cpt c p self) <> _dia_clear self.

(** The two errors of the material query. *)
Definition mismatch : exn := ValueError "Invalid Crystal Arrangement.".
Definition indeterminate : exn := ValueError "Unable to determine crystal's material.".

(** ** The rest of the module *)

(** [sub in s] on strings: [sub] starts at some position of [s]. *)
Fixpoint contains (sub s : string) : bool :=
  if String.prefix sub s then true
  else match s with
       | EmptyString => false
       | String _ s' => contains sub s'
       end.

(** [a or b] on values that are a string or [None]: [a] unless it is falsy
    ([None] or the empty string). *)
Definition py_or (a b : option string) : option string :=
  match a with
  | Some s => if String.eqb s "" then b else a
  | None => b
  end.

(** [d.get(k)] on a dictionary kept as the list of its items. *)
Fixpoint dict_get {V : Type} (k : string) (d : list (string * V)) : option V :=
  match d with
  | [] => None
  | (k', v) :: rest => if String.eqb k' k then Some v else dict_get k rest
  end.

(** *** The motor table and the prefixes of the constructor *)

Module Motor.
Record info : Type := { prefix : string; description : string }.
End Motor.

Definition LODCM_MOTORS : list (string * Motor.info) :=
  [ (* CRYSTAL TOWER ONE *)
    ("z1", {| Motor.prefix := "XPP:MON:MMS:04"; Motor.description := "LOM Xtal1 Z" |});
    ("x1", {| Motor.prefix := "XPP:MON:MMS:05"; Motor.description := "LOM Xtal1 X" |});
    ("y1", {| Motor.prefix := "XPP:MON:MMS:06"; Motor.description := "LOM Xtal1 Y" |});
    ("th1", {| Motor.prefix := "XPP:MON:MMS:07"; Motor.description := "LOM Xtal1 Theta" |});
    ("ch1", {| Motor.prefix := "XPP:MON:MMS:08"; Motor.description := "LOM Xtal1 Chi" |});
    ("h1n_m", {| Motor.prefix := "XPP:MON:MMS:09"; Motor.description := "LOM Xtal1 Hn" |});
    ("h1p", {| Motor.prefix := "XPP:MON:MMS:20"; Motor.description := "LOM Xtal1 Hp" |});
    ("th1f", {| Motor.prefix := "XPP:MON:PIC:01"; Motor.description := "" |});
    ("ch1f", {| Motor.prefix := "XPP:MON:PIC:02"; Motor.description := "" |});
    (* CRYSTAL TOWER TWO *)
    ("z2", {| Motor.prefix := "XPP:MON:MMS:10"; Motor.description := "LOM Xtal2 Z" |});
    ("x2", {| Motor.prefix := "XPP:MON:MMS:11"; Motor.description := "LOM Xtal2 X" |});
    ("y2", {| Motor.prefix := "XPP:MON:MMS:12"; Motor.description := "LOM Xtal2 Y" |});
    ("th2", {| Motor.prefix := "XPP:MON:MMS:13"; Motor.description := "LOM Xtal2 Theta" |});
    ("ch2", {| Motor.prefix := "XPP:MON:MMS:14"; Motor.description := "LOM Xtal2 Chi" |});
    ("h2n", {| Motor.prefix := "XPP:MON:MMS:15"; Motor.description := "LOM Xtal2 Hn" |});
    ("diode2", {| Motor.prefix := "XPP:MON:MMS:21"; Motor.description := "LOM Xtal2 PIPS" |});
    ("th2f", {| Motor.prefix := "XPP:MON:PIC:03"; Motor.description := "" |});
    ("ch2f", {| Motor.prefix := "XPP:MON:PIC:04"; Motor.description := "" |});
    (* DIAGNOSTICS TOWER *)
    ("dh", {| Motor.prefix := "XPP:MON:MMS:16"; Motor.description := "LOM Dia H" |});
    ("dv", {| Motor.prefix := "XPP:MON:MMS:17"; Motor.description := "LOM Dia V" |});
    ("dr", {| Motor.prefix := "XPP:MON:MMS:19"; Motor.description := "LOM Dia Theta" |});
    ("df", {| Motor.prefix := "XPP:MON:MMS:27"; Motor.description := "LOM Dia Filter Wheel" |});
    ("dd", {| Motor.prefix := "XPP:MON:MMS:18"; Motor.description := "LOM Dia PIPS" |});
    ("yag_zoom", {| Motor.prefix := "XPP:MON:CLZ:01"; Motor.description := "LOM Zoom" |}) ].

(** [get_prefix]: the prefix of a motor of the table; for any other name the
    [KeyError] is caught and logged, and nothing ([None]) is returned. *)
Definition get_prefix (motor : string) : option string :=
  match dict_get motor LODCM_MOTORS with
  | Some entry => Some (Motor.prefix entry)
  | None => None
  end.

(** The keyword arguments of the constructor: what [kwargs.get] gives for
    each name ([None] for a name that is absent or bound to [None]). *)
Definition kwargs : Type := string -> option string.

(** [kwargs[k] = v]. *)
Definition kwargs_set (k : string) (v : option string) (kw : kwargs) : kwargs :=
  fun k' => if String.eqb k' k then v else kw k'.

(** One line of the constructor:
    [kwargs['m_prefix'] = kwargs.get('m_prefix') or get_prefix('m')]. *)
Definition default_prefix (kw : kwargs) (motor : string) : kwargs :=
  kwargs_set (motor ++ "_prefix")
             (py_or (kw (motor ++ "_prefix")) (get_prefix motor)) kw.

(** The motors the constructor gives a default prefix, in its order. *)
Definition init_motors : list string :=
  ["z1"; "x1"; "y1"; "th1"; "ch1"; "h1n_m"; "h1p";
   "z2"; "x2"; "y2"; "th2"; "ch2"; "h2n"; "diode2";
   "dh"; "dv"; "dr"; "df"; "dd"; "yag_zoom"].

(** The keyword arguments as [__init__] hands them on, after its twenty
    assignments. *)
Definition init_prefixes (kw : kwargs) : kwargs :=
  fold_left default_prefix init_motors kw.

(** *** The filter foil *)

(** The state lists [Foil.__init__] sets from the prefix it is built with;
    without a hutch in the prefix the class's own empty [in_states] stays. *)
Module Foil.
Definition in_states (prefix : string) : list string :=
  if contains "XPP" prefix then ["Mo"; "Zr"; "Zn"; "Cu"; "Ni"; "Fe"; "Ti"]
  else if contains "XCS" prefix then ["Mo"; "Zr"; "Ge"; "Cu"; "Ni"; "Fe"; "Ti"]
  else [].
Definition states_list (prefix : string) : list string :=
  (["OUT"] ++ in_states prefix)%list.
End Foil.

(** The prefix the device builds its foil with: [foil = Cpt(Foil, ":FOIL")]
    appends the suffix to the device's own prefix. *)
Definition foil_prefix (prefix : string) : string := prefix ++ ":FOIL".

(** *** Reflection of the two towers together *)

Fixpoint items_eqb (a b : list Z) : bool :=
  match a, b with
  | [], [] => true
  | x :: a', y :: b' => Z.eqb x y && items_eqb a' b'
  | _, _ => false
  end.

(** [==] on what a reflection query returns. *)
Definition pyval_eqb (a b : pyval) : bool :=
  match a, b with
  | PyNone, PyNone => true
  | PyStr x, PyStr y => String.eqb x y
  | PyTuple x, PyTuple y => items_eqb x y
  | _, _ => false
  end.

Definition get_reflection (self : LODCM) (as_tuple check : bool) : result pyval :=
  (ref_1 <- get_first_tower_reflection self as_tuple check ;;
   ref_2 <- get_second_tower_reflection self as_tuple check ;;
   if negb (pyval_eqb ref_1 ref_2)
   then Raise (ValueError "Invalid Crystal Arrangement")
   else Ok ref_1)%result.

(** *** Geometry and the status report *)

(** What the status report shows as the photon energy: the number, or the
    word it puts in its place. *)
Inductive energy_text : Type :=
| EnergyValue (e : float)
| EnergyUnknown.

(** The values the head of the status report is made of. *)
Record status_header : Type := {
  hutch : string;
  configuration : string;
  energy : energy_text;
  ref : pyval
}.

Section Geometry.

Variables np_sin np_deg2rad wavelength_to_energy : float -> float.
Variable d_space : option string -> pyval -> result float.
(** The crystallography calculation of angle and offset for an energy. *)
Variable get_geometry : float -> option string -> pyval -> result (float * float).

Definition calc_energy (self : LODCM) (energy : float) (material : option string)
  (reflection : pyval) : result (float * float * option string) :=
  (reflection <- (if is_None reflection
                  then get_reflection self true true
                  else Ok reflection) ;;
   material <- (match material with
                | None => get_material self true
                | Some _ => Ok material
                end) ;;
   geometry <- get_geometry energy material reflection ;;
   let (th, z) := geometry in
   Ok (th, z, material))%result.

(** The head of [format_status_info], up to the readbacks of the table: the
    hutch named in the device's prefix, the material and its wording, the
    energy or the word in its place, and the reflection. *)
Definition format_status_header (self : LODCM) (prefix : string)
  : result status_header :=
  let hutch :=
    if contains "XPP" prefix then "XPP "
    else if contains "XCS" prefix then "XCS "
    else "" in
  (material <- get_material self false ;;
   let configuration :=
     if material_eqb material (Some "C") then "Diamond"
     else if material_eqb material (Some "Si") then "Silicon"
     else "Unknown" in
   let energy :=
     match get_energy np_sin np_deg2rad wavelength_to_energy d_space
                      self None PyNone with
     | Ok e => EnergyValue e
     | Raise _ => EnergyUnknown
     end in
   ref <- get_reflection self true false ;;
   Ok {| hutch := hutch; configuration := configuration;
         energy := energy; ref := ref |})%result.

End Geometry.

(** The spaces that fill a field up to its width. *)
Fixpoint spaces (n : nat) : string :=
  match n with
  | O => ""
  | S n' => String " " (spaces n')
  end.

(** [f'{s:<w}'] and [f'{s:>w}'] on a string: padded on the right or on the
    left up to [w] characters, and left as it is when longer. *)
Definition ljust (w : nat) (s : string) : string :=
  s ++ spaces (w - String.length s).

Definition rjust (w : nat) (s : string) : string :=
  spaces (w - String.length s) ++ s.

(** A row of the status table. *)
Definition form (left_str center_str right_str : string) : string :=
  ljust 15 left_str ++ rjust 25 center_str ++ rjust 25 right_str.

(** The rule the status table is divided by. *)
Definition rule : string :=
  "-----------------------------------------------------------------".

(** What a reflection returned as a tuple reads as when returned as a
    string instead: the loop of [_get_reflection] run on it. *)
Definition rendered (v : pyval) : pyval :=
  match v with
  | PyTuple items =>
      match fold_left render_step items None with
      | None => PyNone
      | Some s => PyStr s
      end
  | _ => v
  end.

(** *** Devices that agree on what a query reads *)

(** Two devices read the same first tower: its three state positioners are
    at the same states, its registers hold the same and its angles read the
    same. *)
Definition same_first_tower (a b : LODCM) : Prop :=
  position a.[h1n] = position b.[h1n] /\
  position a.[y1_state] = position b.[y1_state] /\
  position a.[chi1_state] = position b.[chi1_state] /\
  t1_c_ref a = t1_c_ref b /\ t1_si_ref a = t1_si_ref b /\
  th1_si a = th1_si b /\ th1_c a = th1_c b.

(** A device with the given registers on both towers. *)
Definition with_refs (r1c r1si r2c r2si : list Z) (self : LODCM) : LODCM :=
  {| cpt := cpt self;
     t1_c_ref := r1c; t1_si_ref := r1si; t2_c_ref := r2c; t2_si_ref := r2si;
     th1_si := th1_si self; th1_c := th1_c self;
     th2_si := th2_si self; th2_c := th2_c self;
     main_line := main_line self; mono_line := mono_line self |}.

(** ** Basic facts *)

Lemma py_in_In (x : string) (l : list string) : py_in x l = true <-> In x l.
Proof.
  unfold py_in. rewrite existsb_exists. split.
  - intros [y [Hy Heq]]. apply String.eqb_eq in Heq. now subst.
  - intros H. exists x. split; [assumption | apply String.eqb_refl].
Qed.

Lemma py_list_remove_In (x : string) (l : list string) :
  In x l -> exists l', py_list_remove x l = Ok l'.
Proof.
  induction l as [| y t IH]; simpl; [intros [] |].
  intros [-> | Hin].
  - rewrite String.eqb_refl. now exists t.
  - destruct (String.eqb y x); [now exists t |].
    destruct (IH Hin) as [t' ->]. now exists (y :: t').
Qed.

Lemma eqb_false_of_neq (a b : string) : a <> b -> String.eqb a b = false.
Proof. apply String.eqb_neq. Qed.

(** ** Scenarios of the specification *)

Example destination_out_clear :
  destination (xpp_lodcm "OUT" "C" "C" true true true) = Ok ["MAIN"].
Proof. reflexivity. Qed.

Example destination_c_clear :
  destination (xpp_lodcm "C" "C" "C" true true true) = Ok ["MAIN"; "MONO"].
Proof. reflexivity. Qed.

Example destination_c_yag_in :
  destination (xpp_lodcm "C" "C" "C" false true true) = Ok ["MAIN"].
Proof. reflexivity. Qed.

Example destination_unknown :
  destination (xpp_lodcm "Unknown" "C" "C" true true true) = Ok [].
Proof. reflexivity. Qed.

(** ** Diagnostics *)

(** C2. The diagnostics check answers true exactly when the imaging screen,
    the detector insert and the filter foil are all removed, and replacing
    the readback of the diode by any other leaves the answer as it was. *)
Theorem dia_clear_iff_three_removed (self : LODCM) :
  (_dia_clear self = true <->
     removed self.[yag] = true /\ removed self.[dectris] = true /\
     removed self.[foil] = true) /\
  (forall p : InOutRecordPositioner,
     _dia_clear (with_cpt diode p self) = _dia_clear self).
Proof.
  split.
  - unfold _dia_clear. simpl.
    destruct (removed self.[yag]), (removed self.[dectris]),
      (removed self.[foil]); simpl; intuition congruence.
  - intros p. reflexivity.
Qed.

(** ** Destination *)

(** The destination query never raises: the branch it removes is one it has
    just found in the list. *)
Lemma destination_returns (self : LODCM) :
  exists dest, destination self = Ok dest.
Proof.
  unfold destination.
  set (dest := if String.eqb (position self.[h1n]) "OUT" then _ else _).
  destruct (negb (_dia_clear self) && py_in (mono_line self) dest) eqn:E.
  - apply andb_true_iff in E as [_ E]. apply py_in_In in E.
    now apply py_list_remove_In.
  - now exists dest.
Qed.

(** C1, as the code has it. When the two branch names are distinct: the
    destination is the main branch alone for lead state [OUT], the mono
    branch alone for [Si] and both for [C], each without the mono branch
    when the diagnostics are not clear; it is empty for any other lead
    state; and it never holds the mono branch when the diagnostics are not
    clear. *)
Theorem destination_by_lead_state (self : LODCM) :
  main_line self <> mono_line self ->
  (position self.[h1n] = "OUT" -> destination self = Ok [main_line self]) /\
  (position self.[h1n] = "Si" ->
     destination self = Ok (if _dia_clear self then [mono_line self] else [])) /\
  (position self.[h1n] = "C" ->
     destination self =
       Ok (if _dia_clear self then [main_line self; mono_line self]
           else [main_line self])) /\
  (position self.[h1n] <> "OUT" -> position self.[h1n] <> "Si" ->
     position self.[h1n] <> "C" -> destination self = Ok []) /\
  (_dia_clear self = false ->
     forall dest, destination self = Ok dest -> ~ In (mono_line self) dest).
Proof.
  intros Hne.
  assert (Hmm : String.eqb (mono_line self) (main_line self) = false)
    by (apply String.eqb_neq; congruence).
  assert (Hmm' : String.eqb (main_line self) (mono_line self) = false)
    by (now apply String.eqb_neq).
  unfold destination.
  repeat split.
  - intros ->. simpl. rewrite Hmm. simpl. now rewrite andb_false_r.
  - intros ->. simpl. rewrite String.eqb_refl. simpl.
    now destruct (_dia_clear self).
  - intros ->. simpl. rewrite Hmm, Hmm', String.eqb_refl. simpl.
    now destruct (_dia_clear self).
  - intros H1 H2 H3.
    rewrite (eqb_false_of_neq _ _ H1), (eqb_false_of_neq _ _ H2),
      (eqb_false_of_neq _ _ H3).
    simpl. now rewrite andb_false_r.
  - intros Hclear dest. rewrite Hclear. simpl.
    destruct (String.eqb (position self.[h1n]) "OUT").
    { simpl. rewrite Hmm. simpl. intros [= <-] [H | []]. congruence. }
    destruct (String.eqb (position self.[h1n]) "Si").
    { simpl. rewrite String.eqb_refl. simpl. intros [= <-] []. }
    destruct (String.eqb (position self.[h1n]) "C").
    { simpl. rewrite Hmm, Hmm', String.eqb_refl. simpl.
      intros [= <-] [H | []]. congruence. }
    simpl. intros [= <-] [].
Qed.

Lemma destination_by_lead_state_witness :
  main_line (xpp_lodcm "C" "C" "C" false true true)
    <> mono_line (xpp_lodcm "C" "C" "C" false true true) /\
  (_dia_clear (xpp_lodcm "C" "C" "C" false true true) = false ->
   forall dest, destination (xpp_lodcm "C" "C" "C" false true true) = Ok dest ->
                ~ In "MONO" dest).
Proof.
  split.
  - simpl. discriminate.
  - apply (destination_by_lead_state (xpp_lodcm "C" "C" "C" false true true)).
    simpl. discriminate.
Defined.

(** C1, as stated, fails when both branches carry one name: with the lead
    positioner at [C] and the imaging screen in the beam, one of the two
    equal names is removed and the other stays, so the destination still
    holds the mono branch although the diagnostics are not clear. *)
Lemma destination_holds_mono_when_names_coincide :
  _dia_clear (sim_lodcm "C" "C" "C" false true true "XPP" "XPP") = false /\
  position (sim_lodcm "C" "C" "C" false true true "XPP" "XPP").[h1n] = "C" /\
  destination (sim_lodcm "C" "C" "C" false true true "XPP" "XPP") = Ok ["XPP"] /\
  In (mono_line (sim_lodcm "C" "C" "C" false true true "XPP" "XPP")) ["XPP"].
Proof. repeat split. simpl. now left. Qed.

(** ** Tower material *)

Lemma tower_1_c_iff (self : LODCM) :
  _is_tower_1_c self = true <->
  (position self.[h1n] = "C" \/ position self.[h1n] = "OUT") /\
  position self.[y1_state] = "C" /\ position self.[chi1_state] = "C".
Proof.
  unfold _is_tower_1_c.
  rewrite !andb_true_iff, orb_true_iff, !String.eqb_eq. tauto.
Qed.

Lemma tower_1_si_iff (self : LODCM) :
  _is_tower_1_si self = true <->
  (position self.[h1n] = "Si" \/ position self.[h1n] = "OUT") /\
  position self.[y1_state] = "Si" /\ position self.[chi1_state] = "Si".
Proof.
  unfold _is_tower_1_si.
  rewrite !andb_true_iff, orb_true_iff, !String.eqb_eq. tauto.
Qed.

Lemma tower_2_c_iff (self : LODCM) :
  _is_tower_2_c self = true <->
  position self.[h2n_state] = "C" /\
  position self.[y2_state] = "C" /\ position self.[chi2_state] = "C".
Proof.
  unfold _is_tower_2_c. rewrite !andb_true_iff, !String.eqb_eq. tauto.
Qed.

Lemma tower_2_si_iff (self : LODCM) :
  _is_tower_2_si self = true <->
  position self.[h2n_state] = "Si" /\
  position self.[y2_state] = "Si" /\ position self.[chi2_state] = "Si".
Proof.
  unfold _is_tower_2_si. rewrite !andb_true_iff, !String.eqb_eq. tauto.
Qed.

(** No tower is of both materials at once. *)
Lemma tower_1_exclusive (self : LODCM) :
  _is_tower_1_c self = true -> _is_tower_1_si self = false.
Proof.
  intros H. apply tower_1_c_iff in H as (_ & Hy & _).
  apply not_true_is_false. intros H'.
  apply tower_1_si_iff in H' as (_ & Hy' & _). congruence.
Qed.

Lemma tower_2_exclusive (self : LODCM) :
  _is_tower_2_c self = true -> _is_tower_2_si self = false.
Proof.
  intros H. apply tower_2_c_iff in H as (_ & Hy & _).
  apply not_true_is_false. intros H'.
  apply tower_2_si_iff in H' as (_ & Hy' & _). congruence.
Qed.

(** The specification's reading of a tower, unfolded per tower. *)
Lemma tower_is_1 (self : LODCM) (M : string) :
  tower_is self 1 M <->
  (position self.[h1n] = M \/ position self.[h1n] = "OUT") /\
  position self.[y1_state] = M /\ position self.[chi1_state] = M.
Proof.
  unfold tower_is, tower, agrees. simpl. split.
  - intros H. inversion_clear H as [| ? ? H1 H']. inversion_clear H' as [| ? ? H2 H''].
    inversion_clear H'' as [| ? ? H3 _].
    repeat split.
    + destruct H1 as [? | [_ ?]]; tauto.
    + destruct H2 as [? | [? _]]; [assumption | discriminate].
    + destruct H3 as [? | [? _]]; [assumption | discriminate].
  - intros (H1 & H2 & H3).
    apply Forall_cons; [| apply Forall_cons; [| apply Forall_cons; [| apply Forall_nil]]].
    + destruct H1; [now left | right; now split].
    + now left.
    + now left.
Qed.

Lemma tower_is_2 (self : LODCM) (M : string) :
  tower_is self 2 M <->
  position self.[h2n_state] = M /\
  position self.[y2_state] = M /\ position self.[chi2_state] = M.
Proof.
  unfold tower_is, tower, agrees. simpl. split.
  - intros H. inversion_clear H as [| ? ? H1 H']. inversion_clear H' as [| ? ? H2 H''].
    inversion_clear H'' as [| ? ? H3 _].
    repeat split;
      match goal with
      | |- position self.[?c] = _ =>
          match goal with
          | Hc : position self.[c] = _ \/ _ |- _ =>
              destruct Hc as [? | [? _]]; [assumption | discriminate]
          end
      end.
  - intros (H1 & H2 & H3).
    apply Forall_cons; [| apply Forall_cons; [| apply Forall_cons; [| apply Forall_nil]]];
      now left.
Qed.

(** What the soft material query of each tower returns. *)
Lemma get_material_1_soft (self : LODCM) :
  _get_material self 1 false =
  Ok (if _is_tower_1_c self then Some "C"
      else if _is_tower_1_si self then Some "Si" else None).
Proof.
  unfold _get_material. simpl.
  now destruct (_is_tower_1_c self), (_is_tower_1_si self).
Qed.

Lemma get_material_2_soft (self : LODCM) :
  _get_material self 2 false =
  Ok (if _is_tower_2_c self then Some "C"
      else if _is_tower_2_si self then Some "Si" else None).
Proof.
  unfold _get_material. simpl.
  now destruct (_is_tower_2_c self), (_is_tower_2_si self).
Qed.

(** The strict query differs from the soft one on an undetermined tower
    only, where it raises. *)
Lemma get_material_strict (self : LODCM) (tower_num : Z) :
  _get_material self tower_num true =
  match _get_material self tower_num false with
  | Ok None => Raise indeterminate
  | r => r
  end.
Proof.
  unfold _get_material.
  destruct (Z.eqb tower_num 1); [| destruct (Z.eqb tower_num 2)];
    repeat match goal with
      | |- context [if ?b then _ else _] => destruct b
      end; reflexivity.
Qed.

Lemma get_material_soft_returns (self : LODCM) (tower_num : Z) :
  exists m, _get_material self tower_num false = Ok m.
Proof.
  unfold _get_material.
  destruct (Z.eqb tower_num 1); [| destruct (Z.eqb tower_num 2)];
    repeat match goal with
      | |- context [if ?b then _ else _] => destruct b
      end; eexists; reflexivity.
Qed.

Lemma material_eqb_eq (a b : option string) : material_eqb a b = true <-> a = b.
Proof.
  destruct a as [x |], b as [y |]; simpl; try (split; congruence).
  rewrite String.eqb_eq. split; congruence.
Qed.

Lemma material_eqb_refl (a : option string) : material_eqb a a = true.
Proof. now apply material_eqb_eq. Qed.

Lemma material_eqb_neq (a b : option string) : a <> b -> material_eqb a b = false.
Proof.
  intros H. apply not_true_is_false. intros E. now apply material_eqb_eq in E.
Qed.

Lemma soft_1_c (self : LODCM) :
  _get_material self 1 false = Ok (Some "C") <-> _is_tower_1_c self = true.
Proof.
  rewrite get_material_1_soft.
  destruct (_is_tower_1_c self), (_is_tower_1_si self); split; congruence.
Qed.

Lemma soft_1_si (self : LODCM) :
  _get_material self 1 false = Ok (Some "Si") <-> _is_tower_1_si self = true.
Proof.
  rewrite get_material_1_soft.
  destruct (_is_tower_1_c self) eqn:Ec.
  - rewrite (tower_1_exclusive self Ec). split; congruence.
  - destruct (_is_tower_1_si self); split; congruence.
Qed.

Lemma soft_1_none (self : LODCM) :
  _get_material self 1 false = Ok None <->
  _is_tower_1_c self = false /\ _is_tower_1_si self = false.
Proof.
  rewrite get_material_1_soft.
  destruct (_is_tower_1_c self), (_is_tower_1_si self);
    (split; [intros H; split; congruence | intros [? ?]; congruence]).
Qed.

Lemma soft_2_c (self : LODCM) :
  _get_material self 2 false = Ok (Some "C") <-> _is_tower_2_c self = true.
Proof.
  rewrite get_material_2_soft.
  destruct (_is_tower_2_c self), (_is_tower_2_si self); split; congruence.
Qed.

Lemma soft_2_si (self : LODCM) :
  _get_material self 2 false = Ok (Some "Si") <-> _is_tower_2_si self = true.
Proof.
  rewrite get_material_2_soft.
  destruct (_is_tower_2_c self) eqn:Ec.
  - rewrite (tower_2_exclusive self Ec). split; congruence.
  - destruct (_is_tower_2_si self); split; congruence.
Qed.

Lemma soft_2_none (self : LODCM) :
  _get_material self 2 false = Ok None <->
  _is_tower_2_c self = false /\ _is_tower_2_si self = false.
Proof.
  rewrite get_material_2_soft.
  destruct (_is_tower_2_c self), (_is_tower_2_si self);
    (split; [intros H; split; congruence | intros [? ?]; congruence]).
Qed.

(** The code's four predicates are the specification's reading of a tower. *)
Lemma is_tower_iff_tower_is (self : LODCM) :
  (_is_tower_1_c self = true <-> tower_is self 1 "C") /\
  (_is_tower_1_si self = true <-> tower_is self 1 "Si") /\
  (_is_tower_2_c self = true <-> tower_is self 2 "C") /\
  (_is_tower_2_si self = true <-> tower_is self 2 "Si").
Proof.
  rewrite tower_1_c_iff, tower_1_si_iff, tower_2_c_iff, tower_2_si_iff.
  rewrite !tower_is_1, !tower_is_2. tauto.
Qed.

(** C4. For either tower and either material [M], the tower is classified
    as [M] exactly when each of its state positioners reports [M], the one
    with an explicit [OUT] state (the lead, [h1n], and no other) being
    accepted at [OUT] too; it is classified as unknown ([None]) exactly when
    neither material fits; and a first tower whose positioners all report
    [Si] is classified as [Si]. *)
Theorem tower_material_classification (self : LODCM) (tower_num : Z) (M : string) :
  (tower_num = 1 \/ tower_num = 2)%Z ->
  M = "C" \/ M = "Si" ->
  (_get_material self tower_num false = Ok (Some M) <-> tower_is self tower_num M) /\
  (_get_material self tower_num false = Ok None <->
     ~ tower_is self tower_num "C" /\ ~ tower_is self tower_num "Si") /\
  (forall c, In c (tower 1 ++ tower 2) ->
     (py_in "OUT" (class_states c) = true <-> c = h1n)) /\
  ((forall c, In c (tower 1) -> position self.[c] = "Si") ->
   forall check, get_first_tower_material self check = Ok (Some "Si")).
Proof.
  intros Hn HM.
  destruct (is_tower_iff_tower_is self) as (H1c & H1s & H2c & H2s).
  split; [| split; [| split]].
  - destruct Hn as [-> | ->], HM as [-> | ->].
    + rewrite soft_1_c. apply H1c.
    + rewrite soft_1_si. apply H1s.
    + rewrite soft_2_c. apply H2c.
    + rewrite soft_2_si. apply H2s.
  - destruct Hn as [-> | ->].
    + rewrite soft_1_none, <- H1c, <- H1s.
      destruct (_is_tower_1_c self), (_is_tower_1_si self);
        intuition congruence.
    + rewrite soft_2_none, <- H2c, <- H2s.
      destruct (_is_tower_2_c self), (_is_tower_2_si self);
        intuition congruence.
  - intros c Hin. simpl in Hin.
    destruct Hin as [<- | [<- | [<- | [<- | [<- | [<- | []]]]]]];
      vm_compute; split; congruence.
  - intros Hall check.
    assert (Hs : _is_tower_1_si self = true).
    { apply tower_1_si_iff. simpl in Hall.
      repeat split; [left | |]; apply Hall; tauto. }
    assert (Hc : _is_tower_1_c self = false).
    { apply not_true_is_false. intros Hc.
      apply tower_1_exclusive in Hc. congruence. }
    unfold get_first_tower_material, _get_material. simpl.
    now rewrite Hc, Hs.
Qed.

Lemma tower_material_classification_witness :
  (1 = 1 \/ 1 = 2)%Z /\ ("Si" = "C" \/ "Si" = "Si") /\
  (_get_material (xpp_lodcm "Si" "Si" "C" true true true) 1 false = Ok (Some "Si")
   <-> tower_is (xpp_lodcm "Si" "Si" "C" true true true) 1 "Si").
Proof.
  split; [now left |]. split; [now right |].
  apply (tower_material_classification
           (xpp_lodcm "Si" "Si" "C" true true true) 1 "Si");
    [now left | now right].
Defined.

Example first_tower_all_si :
  get_first_tower_material (xpp_lodcm "Si" "Si" "C" true true true) false
  = Ok (Some "Si").
Proof. reflexivity. Qed.

Example first_tower_lead_out :
  get_first_tower_material (xpp_lodcm "OUT" "C" "C" true true true) false
  = Ok (Some "C").
Proof. reflexivity. Qed.

Example first_tower_disagreeing :
  get_first_tower_material (xpp_lodcm "C" "Si" "C" true true true) false
  = Ok None.
Proof. reflexivity. Qed.

(** ** Material of the two towers together *)

Lemma get_material_of_results (self : LODCM) (check : bool) (m_1 m_2 : option string) :
  get_first_tower_material self check = Ok m_1 ->
  get_second_tower_material self check = Ok m_2 ->
  get_material self check =
  if material_eqb m_1 m_2 then Ok m_1 else Raise mismatch.
Proof.
  intros H1 H2. unfold get_material. rewrite H1, H2. simpl.
  now destruct (material_eqb m_1 m_2).
Qed.

(** C3. Whatever the check flag: when the two towers' results differ the
    query raises the mismatch error, as it does for a first tower of [C]
    and a second of [Si]; with the check on, an undetermined tower makes it
    raise the indeterminate-state error; and when the two results agree it
    returns that result, a label or [None]. *)
Theorem get_material_outcomes (self : LODCM) (check : bool) :
  (forall m_1 m_2,
     get_first_tower_material self check = Ok m_1 ->
     get_second_tower_material self check = Ok m_2 ->
     m_1 <> m_2 -> get_material self check = Raise mismatch) /\
  (_get_material self 1 false = Ok (Some "C") ->
   _get_material self 2 false = Ok (Some "Si") ->
   get_material self check = Raise mismatch) /\
  (check = true ->
   _get_material self 1 false = Ok None \/ _get_material self 2 false = Ok None ->
   get_material self check = Raise indeterminate) /\
  (forall m,
     get_first_tower_material self check = Ok m ->
     get_second_tower_material self check = Ok m ->
     get_material self check = Ok m).
Proof.
  split; [| split; [| split]].
  - intros m_1 m_2 H1 H2 Hne.
    rewrite (get_material_of_results self check m_1 m_2 H1 H2).
    now rewrite (material_eqb_neq _ _ Hne).
  - intros H1 H2.
    assert (E1 : get_first_tower_material self check = Ok (Some "C")).
    { unfold get_first_tower_material. destruct check; [| assumption].
      now rewrite get_material_strict, H1. }
    assert (E2 : get_second_tower_material self check = Ok (Some "Si")).
    { unfold get_second_tower_material. destruct check; [| assumption].
      now rewrite get_material_strict, H2. }
    now rewrite (get_material_of_results self check _ _ E1 E2).
  - intros -> H. unfold get_material, get_first_tower_material,
      get_second_tower_material.
    rewrite !get_material_strict.
    destruct (get_material_soft_returns self 1) as [m_1 E1].
    destruct (get_material_soft_returns self 2) as [m_2 E2].
    rewrite E1, E2 in *.
    destruct H as [[= ->] | [= ->]]; simpl; [reflexivity |].
    now destruct m_1.
  - intros m H1 H2.
    rewrite (get_material_of_results self check m m H1 H2).
    now rewrite material_eqb_refl.
Qed.

Example material_c_si_soft :
  get_material (xpp_lodcm "C" "C" "Si" true true true) false = Raise mismatch.
Proof. reflexivity. Qed.

Example material_c_si_strict :
  get_material (xpp_lodcm "C" "C" "Si" true true true) true = Raise mismatch.
Proof. reflexivity. Qed.

Example material_unknown_strict :
  get_material (xpp_lodcm "C" "C" "Unknown" true true true) true
  = Raise indeterminate.
Proof. reflexivity. Qed.

Example material_agreed :
  get_material (xpp_lodcm "OUT" "Si" "Si" true true true) true = Ok (Some "Si").
Proof. reflexivity. Qed.

(** C10. Without the check, two undetermined towers give [None] and no
    error, while one undetermined tower beside a determined one gives the
    mismatch error, whichever of the two towers is the undetermined one. *)
Theorem get_material_soft_undetermined (self : LODCM) :
  (_get_material self 1 false = Ok None ->
   _get_material self 2 false = Ok None ->
   get_material self false = Ok None) /\
  (forall M,
     _get_material self 1 false = Ok (Some M) ->
     _get_material self 2 false = Ok None ->
     get_material self false = Raise mismatch) /\
  (forall M,
     _get_material self 1 false = Ok None ->
     _get_material self 2 false = Ok (Some M) ->
     get_material self false = Raise mismatch).
Proof.
  split; [| split]; intros; unfold get_material, get_first_tower_material,
    get_second_tower_material;
    repeat match goal with
      | E : _get_material _ _ _ = _ |- _ => rewrite E; clear E
      end; reflexivity.
Qed.

Example material_both_unknown :
  get_material (xpp_lodcm "C" "Unknown" "Unknown" true true true) false = Ok None.
Proof. reflexivity. Qed.

Example material_second_unknown :
  get_material (xpp_lodcm "C" "C" "Unknown" true true true) false
  = Raise mismatch.
Proof. reflexivity. Qed.

Example material_first_unknown :
  get_material (xpp_lodcm "C" "Unknown" "Si" true true true) false
  = Raise mismatch.
Proof. reflexivity. Qed.

(** ** Reflection of a tower *)

Lemma append_empty_r (s : string) : s ++ "" = s.
Proof. induction s as [| a s IH]; simpl; [reflexivity | now rewrite IH]. Qed.

Lemma append_assoc (s t u : string) : (s ++ t) ++ u = s ++ (t ++ u).
Proof. induction s as [| a s IH]; simpl; [reflexivity | now rewrite IH]. Qed.

Lemma concat_empty_cons (x : string) (xs : list string) :
  String.concat "" (x :: xs) = x ++ String.concat "" xs.
Proof. destruct xs; simpl; [now rewrite append_empty_r | reflexivity]. Qed.

(** Once the loop holds a string, it appends the renderings of the
    components still to come. *)
Lemma render_from_some (items : list Z) (s : string) :
  fold_left render_step items (Some s) =
  Some (s ++ String.concat "" (map str items)).
Proof.
  revert s. induction items as [| r items IH]; intros s.
  - simpl. now rewrite append_empty_r.
  - cbn [fold_left render_step map]. rewrite IH, concat_empty_cons.
    now rewrite append_assoc.
Qed.

Lemma render_nonempty (h : Z) (t : list Z) :
  fold_left render_step (h :: t) None =
  Some (String.concat "" (map str (h :: t))).
Proof.
  cbn [fold_left render_step map].
  now rewrite render_from_some, concat_empty_cons.
Qed.

(** The register a determined tower reads. *)
Lemma get_reflection_determined (self : LODCM) (tower_num : Z) (M : string)
  (as_tuple check : bool) :
  _get_material self tower_num false = Ok (Some M) ->
  _get_reflection self tower_num as_tuple check =
  if as_tuple then Ok (PyTuple (reflection_register self tower_num M))
  else Ok (match fold_left render_step
                   (reflection_register self tower_num M) None with
           | None => PyNone
           | Some s => PyStr s
           end).
Proof.
  unfold _get_material, _get_reflection, reflection_register.
  destruct (Z.eqb tower_num 1); [| destruct (Z.eqb tower_num 2)];
    repeat match goal with
      | |- context [if _is_tower_1_c self then _ else _] =>
          destruct (_is_tower_1_c self)
      | |- context [if _is_tower_1_si self then _ else _] =>
          destruct (_is_tower_1_si self)
      | |- context [if _is_tower_2_c self then _ else _] =>
          destruct (_is_tower_2_c self)
      | |- context [if _is_tower_2_si self then _ else _] =>
          destruct (_is_tower_2_si self)
      end;
    intros [= <-]; simpl; rewrite ?andb_false_r; reflexivity.
Qed.

Lemma get_reflection_undetermined (self : LODCM) (tower_num : Z)
  (as_tuple check : bool) :
  _get_material self tower_num false = Ok None ->
  _get_reflection self tower_num as_tuple check =
  if check then Raise (ValueError "Unable to determine the crystal reflection")
  else Ok PyNone.
Proof.
  unfold _get_material, _get_reflection.
  destruct (Z.eqb tower_num 1); [| destruct (Z.eqb tower_num 2)];
    repeat match goal with
      | |- context [if _is_tower_1_c self then _ else _] =>
          destruct (_is_tower_1_c self)
      | |- context [if _is_tower_1_si self then _ else _] =>
          destruct (_is_tower_1_si self)
      | |- context [if _is_tower_2_c self then _ else _] =>
          destruct (_is_tower_2_c self)
      | |- context [if _is_tower_2_si self then _ else _] =>
          destruct (_is_tower_2_si self)
      end;
    intros [=]; destruct check, as_tuple; reflexivity.
Qed.

(** How a register's content is rendered when no tuple is asked for. *)
Lemma get_reflection_rendered (self : LODCM) (tower_num : Z) (M : string)
  (check : bool) :
  _get_material self tower_num false = Ok (Some M) ->
  _get_reflection self tower_num false check =
  Ok (match reflection_register self tower_num M with
      | [] => PyNone
      | h :: t => PyStr (String.concat "" (map str (h :: t)))
      end).
Proof.
  intros H. rewrite (get_reflection_determined self tower_num M false check H).
  destruct (reflection_register self tower_num M) as [| h t]; [reflexivity |].
  now rewrite render_nonempty.
Qed.

(** C5. For a tower whose material is undetermined, the reflection query
    raises when the check is on and returns [None] when it is off; for a
    tower of material [M] it returns, check on or off, what the register of
    that tower and material holds: the tuple itself when a tuple is asked
    for, its rendering otherwise. *)
Theorem get_reflection_by_material (self : LODCM) (tower_num : Z) (as_tuple : bool) :
  (_get_material self tower_num false = Ok None ->
   _get_reflection self tower_num as_tuple true
     = Raise (ValueError "Unable to determine the crystal reflection") /\
   _get_reflection self tower_num as_tuple false = Ok PyNone) /\
  (forall M check,
     _get_material self tower_num false = Ok (Some M) ->
     _get_reflection self tower_num true check
       = Ok (PyTuple (reflection_register self tower_num M)) /\
     _get_reflection self tower_num false check
       = Ok (match reflection_register self tower_num M with
             | [] => PyNone
             | h :: t => PyStr (String.concat "" (map str (h :: t)))
             end)).
Proof.
  split.
  - intros H. split.
    + apply (get_reflection_undetermined self tower_num as_tuple true H).
    + apply (get_reflection_undetermined self tower_num as_tuple false H).
  - intros M check H. split.
    + apply (get_reflection_determined self tower_num M true check H).
    + apply (get_reflection_rendered self tower_num M check H).
Qed.

Example reflection_unknown_strict :
  get_first_tower_reflection (xpp_lodcm "C" "Si" "C" true true true) false true
  = Raise (ValueError "Unable to determine the crystal reflection").
Proof. reflexivity. Qed.

Example reflection_unknown_soft :
  get_first_tower_reflection (xpp_lodcm "C" "Si" "C" true true true) false false
  = Ok PyNone.
Proof. reflexivity. Qed.

Example reflection_si_tuple :
  get_first_tower_reflection (xpp_lodcm "Si" "Si" "C" true true true) true true
  = Ok (PyTuple [2; 2; 0]%Z).
Proof. reflexivity. Qed.

(** C6. When no tuple is asked for and the tower's register holds a
    reflection with components [h], then those of [t], the query returns
    the string made of [str] of each component in order; for [(1, 1, 1)]
    that string is ["111"]. *)
Theorem reflection_rendered_as_string (self : LODCM) (tower_num : Z) (M : string)
  (check : bool) (h : Z) (t : list Z) :
  _get_material self tower_num false = Ok (Some M) ->
  reflection_register self tower_num M = h :: t ->
  _get_reflection self tower_num false check
    = Ok (PyStr (String.concat "" (map str (h :: t)))) /\
  (h :: t = [1; 1; 1]%Z ->
   _get_reflection self tower_num false check = Ok (PyStr "111")).
Proof.
  intros HM Hreg.
  rewrite (get_reflection_rendered self tower_num M check HM), Hreg.
  split; [reflexivity |]. now intros ->.
Qed.

Lemma reflection_rendered_as_string_witness :
  _get_material (xpp_lodcm "C" "C" "C" true true true) 1 false = Ok (Some "C") /\
  reflection_register (xpp_lodcm "C" "C" "C" true true true) 1 "C" = [1; 1; 1]%Z /\
  _get_reflection (xpp_lodcm "C" "C" "C" true true true) 1 false true
    = Ok (PyStr "111").
Proof.
  split; [reflexivity |]. split; [reflexivity |].
  apply (reflection_rendered_as_string
           (xpp_lodcm "C" "C" "C" true true true) 1 "C" true 1%Z [1; 1]%Z);
    reflexivity.
Defined.

(** A register that holds no component at all renders as [None]. *)
Lemma reflection_of_empty_register (self : LODCM) (tower_num : Z) (M : string)
  (check : bool) :
  _get_material self tower_num false = Ok (Some M) ->
  reflection_register self tower_num M = [] ->
  _get_reflection self tower_num false check = Ok PyNone.
Proof.
  intros HM Hreg.
  now rewrite (get_reflection_rendered self tower_num M check HM), Hreg.
Qed.

(** ** Removing the diagnostics *)

Lemma commanded_app (l1 l2 : list event) :
  commanded (l1 ++ l2) = (commanded l1 ++ commanded l2)%list.
Proof. apply flat_map_app. Qed.

(** The loop asks each device in turn, never waiting, whatever has been
    asked before. *)
Lemma remove_each_log (dias : list component) (timeout : option float)
  (status : Status) (log : list event) :
  snd (remove_each dias timeout status log) =
  (log ++ map (fun dia => Remove dia timeout false) dias)%list.
Proof.
  revert status log. induction dias as [| dia rest IH]; intros status log.
  - simpl. now rewrite app_nil_r.
  - cbn [remove_each]. unfold seq, remove. rewrite IH.
    now rewrite <- app_assoc.
Qed.

(** Every device of the diagnostics tower is sent a remove request that
    does not wait and carries the caller's timeout; the handle returned is
    the conjunction of theirs; the callback and the wait come after. *)
Lemma remove_dia_run (self : LODCM) (moved_cb : option string)
  (timeout : option float) (wait : bool) :
  remove_dia self moved_cb timeout wait [] =
  let status :=
    AndStatus (AndStatus (AndStatus (AndStatus NullStatus (MoveStatus 0))
                                    (MoveStatus 1)) (MoveStatus 2)) (MoveStatus 3) in
  (status,
   [Remove yag timeout false; Remove dectris timeout false;
    Remove diode timeout false; Remove foil timeout false]
   ++ match moved_cb with Some cb => [AddCallback status cb] | None => [] end
   ++ (if wait then [StatusWait status] else []))%list.
Proof. destruct moved_cb, wait; reflexivity. Qed.

Lemma remove_dia_commanded (self : LODCM) (moved_cb : option string)
  (timeout : option float) (wait : bool) :
  commanded (snd (remove_dia self moved_cb timeout wait []))
  = [yag; dectris; diode; foil].
Proof. rewrite remove_dia_run. destruct moved_cb, wait; reflexivity. Qed.

Lemma consulted_by_dia_clear_iff (c : component) :
  consulted_by_dia_clear c <-> In c [yag; dectris; foil].
Proof.
  split.
  - intros (self & p & Hdiff).
    destruct c; simpl; try tauto; exfalso; apply Hdiff; reflexivity.
  - intros Hin.
    exists (xpp_lodcm "C" "C" "C" true true true), (at_state "IN" true false).
    simpl in Hin. destruct Hin as [<- | [<- | [<- | []]]]; discriminate.
Qed.

(** C9. Whatever its arguments, the removal sends a remove request to
    exactly the imaging screen, the detector insert, the diode and the
    filter foil. The diagnostics check is sensitive to exactly the first,
    second and fourth of them. So every device the check consults is
    commanded, while the diode is commanded although no readback of it can
    change the check. *)
Theorem remove_dia_commands_more_than_checked (self : LODCM)
  (moved_cb : option string) (timeout : option float) (wait : bool) :
  commanded (snd (remove_dia self moved_cb timeout wait []))
    = [yag; dectris; diode; foil] /\
  (forall c, consulted_by_dia_clear c <-> In c [yag; dectris; foil]) /\
  (forall c, consulted_by_dia_clear c ->
     In c (commanded (snd (remove_dia self moved_cb timeout wait [])))) /\
  In diode (commanded (snd (remove_dia self moved_cb timeout wait []))) /\
  ~ consulted_by_dia_clear diode /\
  (forall p, _dia_clear (with_cpt diode p self) = _dia_clear self).
Proof.
  rewrite remove_dia_commanded.
  split; [reflexivity |].
  split; [apply consulted_by_dia_clear_iff |].
  split; [| split; [| split]].
  - intros c Hc. apply consulted_by_dia_clear_iff in Hc. simpl in *. tauto.
  - simpl. tauto.
  - intros Hc. apply consulted_by_dia_clear_iff in Hc. simpl in Hc.
    destruct Hc as [H | [H | [H | []]]]; discriminate.
  - intros p. reflexivity.
Qed.

(** ** Energy of the first tower *)

Section EnergyFacts.

Variables np_sin np_deg2rad wavelength_to_energy : float -> float.
Variable d_space : option string -> pyval -> result float.

Local Abbreviation energy :=
  (get_energy np_sin np_deg2rad wavelength_to_energy d_space).

(** With material and reflection both given, nothing is inferred: the
    material picks the axis. *)
Lemma get_energy_supplied (self : LODCM) (M : string) (reflection : pyval) :
  is_None reflection = false ->
  energy self (Some M) reflection =
  if String.eqb M "Si"
  then bind (d_space (Some M) reflection)
            (fun d => Ok (wavelength_to_energy (2 * np_sin (np_deg2rad (th1_si self)) * d) / 1000)%float)
  else if String.eqb M "C"
  then bind (d_space (Some M) reflection)
            (fun d => Ok (wavelength_to_energy (2 * np_sin (np_deg2rad (th1_c self)) * d) / 1000)%float)
  else Raise (ValueError ("Invalid material Id: " ++ M)).
Proof.
  intros Hr. unfold get_energy, get_first_tower_energy.
  rewrite Hr. simpl.
  destruct (String.eqb M "Si"); [reflexivity |].
  destruct (String.eqb M "C"); reflexivity.
Qed.

(** With neither given, both are inferred from the first tower, with the
    check on. *)
Lemma get_energy_inferred (self : LODCM) :
  energy self None PyNone =
  bind (get_first_tower_reflection self true true)
       (fun reflection =>
          bind (get_first_tower_material self true)
               (fun material => energy self material reflection)).
Proof.
  unfold get_energy, get_first_tower_energy, get_first_tower_reflection,
    get_first_tower_material, _get_reflection, _get_material.
  simpl.
  destruct (_is_tower_1_c self); [reflexivity |].
  destruct (_is_tower_1_si self); reflexivity.
Qed.

(** C7. With neither material nor reflection given, both are inferred from
    the first tower. A first tower of [Si] has its angle read from
    [th1_si] and its reflection from the [Si] register, a first tower of
    [C] from [th1_c] and the [C] register; the energy returned is the
    wavelength [2 * sin(radians(angle)) * d_space(material, reflection)]
    converted to an energy and divided by 1000. The same path is taken from
    a material and a reflection that are given. *)
Theorem get_energy_forward_path (self : LODCM) :
  energy self None PyNone =
    bind (get_first_tower_reflection self true true)
         (fun reflection =>
            bind (get_first_tower_material self true)
                 (fun material => energy self material reflection)) /\
  (forall d,
     get_first_tower_material self false = Ok (Some "Si") ->
     d_space (Some "Si") (PyTuple (t1_si_ref self)) = Ok d ->
     energy self None PyNone = Ok (wavelength_to_energy (2 * np_sin (np_deg2rad (th1_si self)) * d) / 1000)%float) /\
  (forall d,
     get_first_tower_material self false = Ok (Some "C") ->
     d_space (Some "C") (PyTuple (t1_c_ref self)) = Ok d ->
     energy self None PyNone = Ok (wavelength_to_energy (2 * np_sin (np_deg2rad (th1_c self)) * d) / 1000)%float) /\
  (forall items d,
     d_space (Some "Si") (PyTuple items) = Ok d ->
     energy self (Some "Si") (PyTuple items) = Ok (wavelength_to_energy (2 * np_sin (np_deg2rad (th1_si self)) * d) / 1000)%float) /\
  (forall items d,
     d_space (Some "C") (PyTuple items) = Ok d ->
     energy self (Some "C") (PyTuple items) = Ok (wavelength_to_energy (2 * np_sin (np_deg2rad (th1_c self)) * d) / 1000)%float).
Proof.
  split; [apply get_energy_inferred |].
  split; [| split; [| split]].
  - intros d HM Hd. rewrite get_energy_inferred.
    unfold get_first_tower_material, get_first_tower_reflection in *.
    rewrite (get_reflection_determined self 1 "Si" true true HM).
    rewrite get_material_strict, HM. simpl.
    rewrite get_energy_supplied by reflexivity. simpl.
    unfold reflection_register in *. simpl in *. now rewrite Hd.
  - intros d HM Hd. rewrite get_energy_inferred.
    unfold get_first_tower_material, get_first_tower_reflection in *.
    rewrite (get_reflection_determined self 1 "C" true true HM).
    rewrite get_material_strict, HM. simpl.
    rewrite get_energy_supplied by reflexivity. simpl.
    unfold reflection_register in *. simpl in *. now rewrite Hd.
  - intros items d Hd. rewrite get_energy_supplied by reflexivity.
    simpl. now rewrite Hd.
  - intros items d Hd. rewrite get_energy_supplied by reflexivity.
    simpl. now rewrite Hd.
Qed.

(** An undetermined first tower gives no energy: the inference raises. *)
Lemma get_energy_undetermined (self : LODCM) :
  get_first_tower_material self false = Ok None ->
  energy self None PyNone
  = Raise (ValueError "Unable to determine the crystal reflection").
Proof.
  intros HM. rewrite get_energy_inferred.
  unfold get_first_tower_material, get_first_tower_reflection in *.
  now rewrite (get_reflection_undetermined self 1 true true HM).
Qed.

End EnergyFacts.

(** The path on a concrete device, with stand-ins for the numeric
    collaborators: a first tower of [Si] reads [th1_si]. *)
Lemma get_energy_forward_path_witness :
  get_first_tower_material (xpp_lodcm "Si" "Si" "Si" true true true) false
    = Ok (Some "Si") /\
  get_energy (fun x => x) (fun x => x) (fun x => x) (fun _ _ => Ok 3%float)
             (xpp_lodcm "Si" "Si" "Si" true true true) None PyNone
    = Ok (2 * 10 * 3 / 1000)%float.
Proof.
  split; [reflexivity |].
  apply (get_energy_forward_path (fun x => x) (fun x => x) (fun x => x)
           (fun _ _ => Ok 3%float) (xpp_lodcm "Si" "Si" "Si" true true true));
    reflexivity.
Defined.

(** ** More on the destination *)

(** With distinct branch names, the list the query returns, by cases. *)
Lemma destination_cases (self : LODCM) :
  main_line self <> mono_line self ->
  destination self =
  Ok (if String.eqb (position self.[h1n]) "OUT" then [main_line self]
      else if String.eqb (position self.[h1n]) "Si"
      then (if _dia_clear self then [mono_line self] else [])
      else if String.eqb (position self.[h1n]) "C"
      then (if _dia_clear self then [main_line self; mono_line self]
            else [main_line self])
      else []).
Proof.
  intros Hne.
  assert (Hmm : String.eqb (mono_line self) (main_line self) = false)
    by (apply String.eqb_neq; congruence).
  assert (Hmm' : String.eqb (main_line self) (mono_line self) = false)
    by (now apply String.eqb_neq).
  unfold destination.
  destruct (String.eqb (position self.[h1n]) "OUT").
  { simpl. rewrite Hmm. simpl. now rewrite andb_false_r. }
  destruct (String.eqb (position self.[h1n]) "Si").
  { simpl. rewrite String.eqb_refl. now destruct (_dia_clear self). }
  destruct (String.eqb (position self.[h1n]) "C").
  { simpl. rewrite Hmm, Hmm', String.eqb_refl. now destruct (_dia_clear self). }
  simpl. now rewrite andb_false_r.
Qed.

(** X1. The destination query never raises, although it removes from a
    list: whatever the readbacks and the branch names, it returns a list,
    and every item of that list is one of the two branches of the device. *)
Theorem destination_within_branches (self : LODCM) :
  exists dest,
    destination self = Ok dest /\
    (forall b, In b dest -> In b (branches self)) /\
    (List.length dest <= 2)%nat.
Proof.
  unfold destination, branches.
  destruct (String.eqb (position self.[h1n]) "OUT");
    [| destruct (String.eqb (position self.[h1n]) "Si");
       [| destruct (String.eqb (position self.[h1n]) "C")]];
    destruct (_dia_clear self); simpl;
    rewrite ?(String.eqb_sym (main_line self) (mono_line self));
    rewrite ?String.eqb_refl; simpl;
    try destruct (String.eqb (mono_line self) (main_line self)); simpl;
    eexists; (split; [reflexivity |]); simpl; (split; [tauto | lia]).
Qed.

(** X2. With distinct branch names, the main branch is in the destination
    exactly when the lead positioner is at [OUT] or [C], whatever the
    diagnostics read; the mono branch is in it exactly when the lead
    positioner is at [Si] or [C] and the diagnostics are clear. *)
Theorem destination_membership (self : LODCM) (dest : list string) :
  main_line self <> mono_line self ->
  destination self = Ok dest ->
  (In (main_line self) dest <->
     position self.[h1n] = "OUT" \/ position self.[h1n] = "C") /\
  (In (mono_line self) dest <->
     (position self.[h1n] = "Si" \/ position self.[h1n] = "C") /\
     _dia_clear self = true).
Proof.
  intros Hne Hd. rewrite (destination_cases self Hne) in Hd.
  assert (Hne' : mono_line self <> main_line self) by congruence.
  destruct (String.eqb_spec (position self.[h1n]) "OUT") as [E1 | N1].
  { injection Hd as <-. rewrite E1. simpl.
    split; split; intuition (try discriminate; try congruence). }
  destruct (String.eqb_spec (position self.[h1n]) "Si") as [E2 | N2].
  { rewrite E2 in *.
    destruct (_dia_clear self); injection Hd as <-; simpl;
      split; split; intuition (try discriminate; try congruence). }
  destruct (String.eqb_spec (position self.[h1n]) "C") as [E3 | N3].
  { rewrite E3 in *.
    destruct (_dia_clear self); injection Hd as <-; simpl;
      split; split; intuition (try discriminate; try congruence). }
  injection Hd as <-. simpl. split; split; intuition congruence.
Qed.

Lemma destination_membership_witness :
  main_line (xpp_lodcm "C" "C" "C" false true true)
    <> mono_line (xpp_lodcm "C" "C" "C" false true true) /\
  destination (xpp_lodcm "C" "C" "C" false true true) = Ok ["MAIN"] /\
  (In "MAIN" ["MAIN"] <->
     position (xpp_lodcm "C" "C" "C" false true true).[h1n] = "OUT" \/
     position (xpp_lodcm "C" "C" "C" false true true).[h1n] = "C").
Proof.
  split; [simpl; discriminate |]. split; [reflexivity |].
  apply (destination_membership (xpp_lodcm "C" "C" "C" false true true) ["MAIN"]);
    [simpl; discriminate | reflexivity].
Defined.

(** X3. A first tower classified as [C] always lets the beam on to the main
    branch, and a first tower classified as [Si] never sends it to both
    branches (branch names distinct, material queried without the check). *)
Theorem first_tower_material_and_destination (self : LODCM) :
  main_line self <> mono_line self ->
  (get_first_tower_material self false = Ok (Some "C") ->
   exists dest, destination self = Ok dest /\ In (main_line self) dest) /\
  (get_first_tower_material self false = Ok (Some "Si") ->
   exists dest, destination self = Ok dest /\
                dest <> [main_line self; mono_line self]).
Proof.
  intros Hne. rewrite (destination_cases self Hne).
  unfold get_first_tower_material. split.
  - intros H. apply soft_1_c, tower_1_c_iff in H as ([E | E] & _).
    + rewrite E. simpl. destruct (_dia_clear self); eexists; split;
        try reflexivity; simpl; tauto.
    + rewrite E. simpl. eexists; split; [reflexivity | simpl; tauto].
  - intros H. apply soft_1_si, tower_1_si_iff in H as ([E | E] & _).
    + rewrite E. simpl. destruct (_dia_clear self); eexists; split;
        try reflexivity; discriminate.
    + rewrite E. simpl. eexists; split; [reflexivity | discriminate].
Qed.

Lemma first_tower_material_and_destination_witness :
  main_line (xpp_lodcm "C" "C" "C" false true true)
    <> mono_line (xpp_lodcm "C" "C" "C" false true true) /\
  get_first_tower_material (xpp_lodcm "C" "C" "C" false true true) false
    = Ok (Some "C") /\
  exists dest, destination (xpp_lodcm "C" "C" "C" false true true) = Ok dest /\
               In "MAIN" dest.
Proof.
  split; [simpl; discriminate |]. split; [reflexivity |].
  apply (first_tower_material_and_destination
           (xpp_lodcm "C" "C" "C" false true true));
    [simpl; discriminate | reflexivity].
Defined.

(** ** More on the material *)

Lemma soft_1_label (self : LODCM) (M : string) :
  _get_material self 1 false = Ok (Some M) ->
  (M = "C" \/ M = "Si") /\ tower_is self 1 M.
Proof.
  destruct (is_tower_iff_tower_is self) as (H1c & H1s & _ & _).
  rewrite get_material_1_soft.
  destruct (_is_tower_1_c self); [intros [= <-]; split; [now left | now apply H1c] |].
  destruct (_is_tower_1_si self); [intros [= <-]; split; [now right | now apply H1s] |].
  discriminate.
Qed.

Lemma soft_2_label (self : LODCM) (M : string) :
  _get_material self 2 false = Ok (Some M) ->
  (M = "C" \/ M = "Si") /\ tower_is self 2 M.
Proof.
  destruct (is_tower_iff_tower_is self) as (_ & _ & H2c & H2s).
  rewrite get_material_2_soft.
  destruct (_is_tower_2_c self); [intros [= <-]; split; [now left | now apply H2c] |].
  destruct (_is_tower_2_si self); [intros [= <-]; split; [now right | now apply H2s] |].
  discriminate.
Qed.

(** X4. A tower number other than 1 and 2 is answered like an undetermined
    tower, whatever the device reads: no material and no reflection without
    the check, the error of the query with it. *)
Theorem tower_num_out_of_range (self : LODCM) (tower_num : Z)
  (as_tuple check : bool) :
  tower_num <> 1%Z -> tower_num <> 2%Z ->
  _get_material self tower_num check
    = (if check then Raise indeterminate else Ok None) /\
  _get_reflection self tower_num as_tuple check
    = (if check
       then Raise (ValueError "Unable to determine the crystal reflection")
       else Ok PyNone).
Proof.
  intros H1 H2. apply Z.eqb_neq in H1, H2.
  unfold _get_material, _get_reflection. rewrite H1, H2.
  destruct check, as_tuple; split; reflexivity.
Qed.

Lemma tower_num_out_of_range_witness :
  (3 <> 1)%Z /\ (3 <> 2)%Z /\
  _get_material (xpp_lodcm "C" "C" "C" true true true) 3 true
    = Raise indeterminate.
Proof.
  split; [discriminate |]. split; [discriminate |].
  apply (tower_num_out_of_range (xpp_lodcm "C" "C" "C" true true true) 3 true true);
    discriminate.
Defined.

(** X5. Whatever the material query of the two towers returns is common to
    both: a label it returns is [C] or [Si] and every state positioner of
    either tower agrees with it; [None] is returned only without the check,
    and only when both towers are undetermined. *)
Theorem get_material_returns_common_label (self : LODCM) (check : bool)
  (m : option string) :
  get_material self check = Ok m ->
  match m with
  | Some M => (M = "C" \/ M = "Si") /\ tower_is self 1 M /\ tower_is self 2 M
  | None =>
      check = false /\
      _get_material self 1 false = Ok None /\
      _get_material self 2 false = Ok None
  end.
Proof.
  unfold get_material, get_first_tower_material, get_second_tower_material.
  destruct (get_material_soft_returns self 1) as [m1 E1].
  destruct (get_material_soft_returns self 2) as [m2 E2].
  assert (H : bind (_get_material self 1 false)
                (fun m_1 => bind (_get_material self 2 false)
                   (fun m_2 => if negb (material_eqb m_1 m_2)
                               then Raise mismatch else Ok m_1)) = Ok m ->
              m1 = m /\ m2 = m).
  { rewrite E1, E2. simpl.
    destruct (material_eqb m1 m2) eqn:E; [| discriminate].
    apply material_eqb_eq in E. simpl. intros [= <-]. now split. }
  destruct check.
  - rewrite !get_material_strict, E1, E2.
    destruct m1 as [M1 |]; [| discriminate]. simpl.
    destruct m2 as [M2 |]; [| discriminate]. simpl.
    intros Hm. rewrite E1, E2 in H. specialize (H Hm) as [<- [= ->]].
    destruct (soft_1_label self M1 E1) as [HM H1].
    destruct (soft_2_label self M1 E2) as [_ H2]. tauto.
  - intros Hm. specialize (H Hm) as [-> ->].
    destruct m as [M |].
    + destruct (soft_1_label self M E1) as [HM H1].
      destruct (soft_2_label self M E2) as [_ H2]. tauto.
    + tauto.
Qed.

Lemma get_material_returns_common_label_witness :
  get_material (xpp_lodcm "OUT" "Si" "Si" true true true) true = Ok (Some "Si") /\
  tower_is (xpp_lodcm "OUT" "Si" "Si" true true true) 2 "Si".
Proof.
  split; [reflexivity |].
  apply (get_material_returns_common_label
           (xpp_lodcm "OUT" "Si" "Si" true true true) true (Some "Si")).
  reflexivity.
Defined.

(** ** Reflection of the two towers together *)

Lemma items_eqb_eq (a b : list Z) : items_eqb a b = true <-> a = b.
Proof.
  revert b. induction a as [| x a IH]; intros [| y b]; simpl;
    try (split; congruence).
  rewrite andb_true_iff, Z.eqb_eq, IH. split; [intros [-> ->] | intros [= -> ->]]; auto.
Qed.

Lemma pyval_eqb_eq (a b : pyval) : pyval_eqb a b = true <-> a = b.
Proof.
  destruct a, b; simpl; try (split; congruence).
  - rewrite String.eqb_eq. split; congruence.
  - rewrite items_eqb_eq. split; congruence.
Qed.

Lemma pyval_eqb_refl (a : pyval) : pyval_eqb a a = true.
Proof. now apply pyval_eqb_eq. Qed.

Lemma pyval_eqb_neq (a b : pyval) : a <> b -> pyval_eqb a b = false.
Proof.
  intros H. apply not_true_is_false. intros E. now apply pyval_eqb_eq in E.
Qed.

Lemma get_reflection_of_results (self : LODCM) (as_tuple check : bool)
  (ref_1 ref_2 : pyval) :
  get_first_tower_reflection self as_tuple check = Ok ref_1 ->
  get_second_tower_reflection self as_tuple check = Ok ref_2 ->
  get_reflection self as_tuple check =
  if pyval_eqb ref_1 ref_2 then Ok ref_1
  else Raise (ValueError "Invalid Crystal Arrangement").
Proof.
  intros H1 H2. unfold get_reflection. rewrite H1, H2. simpl.
  now destruct (pyval_eqb ref_1 ref_2).
Qed.

(** The string a tower's reflection query returns is the rendering of the
    tuple it returns. *)
Lemma get_reflection_string_of_tuple (self : LODCM) (tower_num : Z) (check : bool) :
  _get_reflection self tower_num false check =
  bind (_get_reflection self tower_num true check) (fun v => Ok (rendered v)).
Proof.
  destruct (get_material_soft_returns self tower_num) as [[M |] E].
  - rewrite (get_reflection_determined self tower_num M false check E).
    now rewrite (get_reflection_determined self tower_num M true check E).
  - rewrite (get_reflection_undetermined self tower_num false check E).
    rewrite (get_reflection_undetermined self tower_num true check E).
    now destruct check.
Qed.

(** With the check on, an undetermined tower stops the query of the two
    towers with the error of the per-tower query. *)
Lemma get_reflection_strict_undetermined (self : LODCM) (as_tuple : bool) :
  _get_material self 1 false = Ok None \/ _get_material self 2 false = Ok None ->
  get_reflection self as_tuple true
    = Raise (ValueError "Unable to determine the crystal reflection").
Proof.
  unfold get_reflection, get_first_tower_reflection, get_second_tower_reflection.
  destruct (get_material_soft_returns self 1) as [[M1 |] E1].
  - intros [H | H]; [congruence |].
    rewrite (get_reflection_determined self 1 M1 as_tuple true E1).
    rewrite (get_reflection_undetermined self 2 as_tuple true H).
    now destruct as_tuple.
  - intros _. now rewrite (get_reflection_undetermined self 1 as_tuple true E1).
Qed.

(** Two determined towers, tuples asked for: the registers are compared. *)
Lemma get_reflection_determined_pair (self : LODCM) (M1 M2 : string) (check : bool) :
  _get_material self 1 false = Ok (Some M1) ->
  _get_material self 2 false = Ok (Some M2) ->
  (reflection_register self 1 M1 = reflection_register self 2 M2 ->
   get_reflection self true check
     = Ok (PyTuple (reflection_register self 1 M1))) /\
  (reflection_register self 1 M1 <> reflection_register self 2 M2 ->
   get_reflection self true check
     = Raise (ValueError "Invalid Crystal Arrangement")).
Proof.
  intros H1 H2.
  unfold get_reflection, get_first_tower_reflection, get_second_tower_reflection.
  rewrite (get_reflection_determined self 1 M1 true check H1).
  rewrite (get_reflection_determined self 2 M2 true check H2).
  cbn [bind]. split.
  - intros <-. cbn [pyval_eqb]. now rewrite (proj2 (items_eqb_eq _ _) eq_refl).
  - intros Hne. rewrite (pyval_eqb_neq (PyTuple _) (PyTuple _)); [reflexivity |].
    congruence.
Qed.

(** X6. The reflection query of the two towers together, tuples asked for.
    With the check on, an undetermined tower makes it raise the error of the
    per-tower query. Without the check, two undetermined towers give [None],
    and one undetermined tower beside a determined one gives the arrangement
    error. Two determined towers give the tuple when their registers hold
    the same, and the arrangement error when they do not. *)
Theorem get_reflection_outcomes (self : LODCM) :
  (_get_material self 1 false = Ok None \/ _get_material self 2 false = Ok None ->
   get_reflection self true true
     = Raise (ValueError "Unable to determine the crystal reflection")) /\
  (_get_material self 1 false = Ok None ->
   _get_material self 2 false = Ok None ->
   get_reflection self true false = Ok PyNone) /\
  (forall M,
     (_get_material self 1 false = Ok None /\
      _get_material self 2 false = Ok (Some M)) \/
     (_get_material self 1 false = Ok (Some M) /\
      _get_material self 2 false = Ok None) ->
     get_reflection self true false
       = Raise (ValueError "Invalid Crystal Arrangement")) /\
  (forall M1 M2 check,
     _get_material self 1 false = Ok (Some M1) ->
     _get_material self 2 false = Ok (Some M2) ->
     (reflection_register self 1 M1 = reflection_register self 2 M2 ->
      get_reflection self true check
        = Ok (PyTuple (reflection_register self 1 M1))) /\
     (reflection_register self 1 M1 <> reflection_register self 2 M2 ->
      get_reflection self true check
        = Raise (ValueError "Invalid Crystal Arrangement"))).
Proof.
  unfold get_reflection, get_first_tower_reflection, get_second_tower_reflection.
  split; [| split; [| split]].
  - apply (get_reflection_strict_undetermined self true).
  - intros H1 H2.
    rewrite (get_reflection_undetermined self 1 true false H1).
    now rewrite (get_reflection_undetermined self 2 true false H2).
  - intros M [[H1 H2] | [H1 H2]].
    + rewrite (get_reflection_undetermined self 1 true false H1).
      now rewrite (get_reflection_determined self 2 M true false H2).
    + rewrite (get_reflection_determined self 1 M true false H1).
      now rewrite (get_reflection_undetermined self 2 true false H2).
  - intros M1 M2 check H1 H2.
    fold (get_first_tower_reflection self true check).
    fold (get_second_tower_reflection self true check).
    apply (get_reflection_determined_pair self M1 M2 check H1 H2).
Qed.

Lemma strict_of_soft (self : LODCM) (tower_num : Z) (M : string) (check : bool) :
  _get_material self tower_num false = Ok (Some M) ->
  _get_material self tower_num check = Ok (Some M).
Proof.
  intros H. destruct check; [| assumption].
  now rewrite get_material_strict, H.
Qed.

(** X7. The reflection query compares what the registers hold and not the
    materials. Two determined towers of different materials whose registers
    hold the same reflection pass it, although the material query raises for
    them; two towers of one material whose registers differ fail it,
    although the material query returns their label. *)
Theorem get_reflection_ignores_material (self : LODCM) (check : bool)
  (M1 M2 : string) :
  _get_material self 1 false = Ok (Some M1) ->
  _get_material self 2 false = Ok (Some M2) ->
  (M1 <> M2 ->
   reflection_register self 1 M1 = reflection_register self 2 M2 ->
   get_material self check = Raise mismatch /\
   get_reflection self true check = Ok (PyTuple (reflection_register self 1 M1))) /\
  (M1 = M2 ->
   reflection_register self 1 M1 <> reflection_register self 2 M2 ->
   get_material self check = Ok (Some M1) /\
   get_reflection self true check
     = Raise (ValueError "Invalid Crystal Arrangement")).
Proof.
  intros H1 H2.
  pose proof (strict_of_soft self 1 M1 check H1) as S1.
  pose proof (strict_of_soft self 2 M2 check H2) as S2.
  pose proof (get_material_of_results self check _ _ S1 S2) as Hm.
  destruct (get_reflection_determined_pair self M1 M2 check H1 H2) as [Heq Hne].
  split.
  - intros HM Hreg. split; [| now apply Heq].
    rewrite Hm. rewrite material_eqb_neq; [reflexivity | congruence].
  - intros HM Hreg. split; [| now apply Hne].
    rewrite Hm. subst M2. now rewrite material_eqb_refl.
Qed.

Lemma get_reflection_ignores_material_witness :
  _get_material (with_refs [1; 1; 1]%Z [2; 2; 0]%Z [3; 3; 3]%Z [1; 1; 1]%Z
                   (xpp_lodcm "C" "C" "Si" true true true)) 1 false
    = Ok (Some "C") /\
  get_material (with_refs [1; 1; 1]%Z [2; 2; 0]%Z [3; 3; 3]%Z [1; 1; 1]%Z
                  (xpp_lodcm "C" "C" "Si" true true true)) true
    = Raise mismatch /\
  get_reflection (with_refs [1; 1; 1]%Z [2; 2; 0]%Z [3; 3; 3]%Z [1; 1; 1]%Z
                    (xpp_lodcm "C" "C" "Si" true true true)) true true
    = Ok (PyTuple [1; 1; 1]%Z).
Proof.
  split; [reflexivity |].
  apply (get_reflection_ignores_material
           (with_refs [1; 1; 1]%Z [2; 2; 0]%Z [3; 3; 3]%Z [1; 1; 1]%Z
              (xpp_lodcm "C" "C" "Si" true true true)) true "C" "Si");
    try reflexivity.
  discriminate.
Defined.

(** X8. Asking for strings is the coarser comparison. Whenever the query
    for tuples returns, the query for strings returns too, with the
    rendering of the same value; but not the other way round: registers
    holding [(1, 11)] and [(11, 1)] both read ["111"], so the query for
    strings returns where the query for tuples raises. *)
Theorem get_reflection_string_is_coarser :
  (forall (self : LODCM) (check : bool) (v : pyval),
     get_reflection self true check = Ok v ->
     get_reflection self false check = Ok (rendered v)) /\
  (exists self : LODCM,
     get_reflection self false true = Ok (PyStr "111") /\
     get_reflection self true true
       = Raise (ValueError "Invalid Crystal Arrangement")).
Proof.
  split.
  - intros self check v.
    unfold get_reflection, get_first_tower_reflection,
      get_second_tower_reflection.
    rewrite (get_reflection_string_of_tuple self 1 check).
    rewrite (get_reflection_string_of_tuple self 2 check).
    destruct (_get_reflection self 1 true check) as [r1 |]; [| discriminate].
    destruct (_get_reflection self 2 true check) as [r2 |]; [| discriminate].
    simpl. destruct (pyval_eqb r1 r2) eqn:E; [| discriminate].
    apply pyval_eqb_eq in E. subst r2. simpl. intros [= <-].
    now rewrite pyval_eqb_refl.
  - exists (with_refs [1; 11]%Z [2; 2; 0]%Z [11; 1]%Z [2; 2; 0]%Z
              (xpp_lodcm "C" "C" "C" true true true)).
    split; reflexivity.
Qed.

(** ** Geometry for an energy *)

Section GeometryFacts.

Variable get_geometry : float -> option string -> pyval -> result (float * float).

(** X9. When the geometry calculation is left to infer material and
    reflection and returns, the material it returns is [C] or [Si] and is
    that of both towers, the registers of both towers hold one reflection,
    and angle and offset are those calculated for the energy asked for,
    that material and that reflection. *)
Theorem calc_energy_inferred (self : LODCM) (energy th z : float)
  (m : option string) :
  calc_energy get_geometry self energy None PyNone = Ok (th, z, m) ->
  exists M,
    m = Some M /\ (M = "C" \/ M = "Si") /\
    tower_is self 1 M /\ tower_is self 2 M /\
    reflection_register self 1 M = reflection_register self 2 M /\
    get_geometry energy (Some M) (PyTuple (reflection_register self 1 M))
      = Ok (th, z).
Proof.
  unfold calc_energy. cbn [is_None].
  destruct (get_material_soft_returns self 1) as [[M1 |] E1];
    [| now rewrite (get_reflection_strict_undetermined self true (or_introl E1))].
  destruct (get_material_soft_returns self 2) as [[M2 |] E2];
    [| now rewrite (get_reflection_strict_undetermined self true (or_intror E2))].
  destruct (get_reflection_determined_pair self M1 M2 true E1 E2) as [Heq Hne].
  destruct (list_eq_dec Z.eq_dec (reflection_register self 1 M1)
              (reflection_register self 2 M2)) as [Hreg | Hreg];
    [| now rewrite (Hne Hreg)].
  rewrite (Heq Hreg). cbn [bind].
  rewrite (get_material_of_results self true (Some M1) (Some M2)
             (strict_of_soft self 1 M1 true E1) (strict_of_soft self 2 M2 true E2)).
  destruct (material_eqb (Some M1) (Some M2)) eqn:EM; [| discriminate].
  apply material_eqb_eq in EM. injection EM as <-. cbn [bind].
  destruct (get_geometry energy (Some M1)
              (PyTuple (reflection_register self 1 M1))) as [[th' z'] |] eqn:G;
    [| discriminate].
  cbn [bind]. intros [= <- <- <-]. exists M1.
  destruct (soft_1_label self M1 E1) as [HM H1].
  destruct (soft_2_label self M1 E2) as [_ H2].
  repeat split; assumption.
Qed.

(** X10. Left to infer, the geometry calculation stops before any
    calculation: at an undetermined tower with the error of the reflection
    query; at registers that differ with the arrangement error of the
    reflection query; and, the registers holding the same, at materials
    that differ with the arrangement error of the material query. *)
Theorem calc_energy_stops_early (self : LODCM) (energy : float) :
  (_get_material self 1 false = Ok None \/ _get_material self 2 false = Ok None ->
   calc_energy get_geometry self energy None PyNone
     = Raise (ValueError "Unable to determine the crystal reflection")) /\
  (forall M1 M2,
     _get_material self 1 false = Ok (Some M1) ->
     _get_material self 2 false = Ok (Some M2) ->
     (reflection_register self 1 M1 <> reflection_register self 2 M2 ->
      calc_energy get_geometry self energy None PyNone
        = Raise (ValueError "Invalid Crystal Arrangement")) /\
     (reflection_register self 1 M1 = reflection_register self 2 M2 ->
      M1 <> M2 ->
      calc_energy get_geometry self energy None PyNone = Raise mismatch)).
Proof.
  unfold calc_energy. cbn [is_None]. split.
  - intros H. now rewrite (get_reflection_strict_undetermined self true H).
  - intros M1 M2 E1 E2.
    destruct (get_reflection_determined_pair self M1 M2 true E1 E2) as [Heq Hne].
    split.
    + intros Hreg. now rewrite (Hne Hreg).
    + intros Hreg HM. rewrite (Heq Hreg). cbn [bind].
      rewrite (get_material_of_results self true (Some M1) (Some M2)
                 (strict_of_soft self 1 M1 true E1)
                 (strict_of_soft self 2 M2 true E2)).
      rewrite material_eqb_neq; [reflexivity | congruence].
Qed.

End GeometryFacts.

Lemma calc_energy_inferred_witness :
  calc_energy (fun e _ _ => Ok (e, 1%float))
              (xpp_lodcm "C" "C" "C" true true true) 8%float None PyNone
    = Ok (8%float, 1%float, Some "C") /\
  exists M,
    Some "C" = Some M /\ (M = "C" \/ M = "Si") /\
    tower_is (xpp_lodcm "C" "C" "C" true true true) 1 M /\
    tower_is (xpp_lodcm "C" "C" "C" true true true) 2 M /\
    reflection_register (xpp_lodcm "C" "C" "C" true true true) 1 M
      = reflection_register (xpp_lodcm "C" "C" "C" true true true) 2 M /\
    Ok (8%float, 1%float) = Ok (8%float, 1%float).
Proof.
  split; [reflexivity |].
  apply (calc_energy_inferred (fun e _ _ => Ok (e, 1%float))
           (xpp_lodcm "C" "C" "C" true true true) 8%float 8%float 1%float
           (Some "C")).
  reflexivity.
Defined.

(** ** More on the energy *)

Section MoreEnergyFacts.

Variables np_sin np_deg2rad wavelength_to_energy : float -> float.
Variable d_space : option string -> pyval -> result float.

Lemma same_first_tower_predicates (a b : LODCM) :
  same_first_tower a b ->
  _is_tower_1_c a = _is_tower_1_c b /\ _is_tower_1_si a = _is_tower_1_si b.
Proof.
  intros (Hh & Hy & Hc & _). unfold _is_tower_1_c, _is_tower_1_si.
  now rewrite Hh, Hy, Hc.
Qed.

(** X11. The energy is determined by the first crystal alone: two devices
    that read the same first tower (its three state positioners, its two
    registers, its two angles) give the same energy, or the same error,
    whatever the second tower, the diagnostics and the branch names are. *)
Theorem get_energy_first_tower_only (a b : LODCM) (material : option string)
  (reflection : pyval) :
  same_first_tower a b ->
  get_energy np_sin np_deg2rad wavelength_to_energy d_space a material reflection
  = get_energy np_sin np_deg2rad wavelength_to_energy d_space b material reflection.
Proof.
  intros H. destruct (same_first_tower_predicates a b H) as [Hc Hs].
  destruct H as (_ & _ & _ & Hrc & Hrs & Hts & Htc).
  unfold get_energy, get_first_tower_energy, get_first_tower_reflection,
    get_first_tower_material, _get_reflection, _get_material.
  cbn [Z.eqb Pos.eqb]. now rewrite Hc, Hs, Hrc, Hrs, Hts, Htc.
Qed.

(** X12. How the energy query fails. Left to infer from an undetermined
    first tower, it raises the error of the reflection query, which comes
    first, and it does so even when a material is given; given a reflection
    only, it raises the error of the material query; and given a material
    other than [Si] and [C], it raises its own error naming that material,
    before any spacing is looked up. *)
Theorem get_energy_failures (self : LODCM) :
  (get_first_tower_material self false = Ok None ->
   forall material,
     get_energy np_sin np_deg2rad wavelength_to_energy d_space self material PyNone
     = Raise (ValueError "Unable to determine the crystal reflection")) /\
  (get_first_tower_material self false = Ok None ->
   forall items,
     get_energy np_sin np_deg2rad wavelength_to_energy d_space
                self None (PyTuple items)
     = Raise indeterminate) /\
  (forall M items,
     M <> "Si" -> M <> "C" ->
     get_energy np_sin np_deg2rad wavelength_to_energy d_space
                self (Some M) (PyTuple items)
     = Raise (ValueError ("Invalid material Id: " ++ M))).
Proof.
  unfold get_first_tower_material. split; [| split].
  - intros H material.
    unfold get_energy, get_first_tower_energy, get_first_tower_reflection.
    cbn [is_None].
    now rewrite (get_reflection_undetermined self 1 true true H).
  - intros H items.
    unfold get_energy, get_first_tower_energy, get_first_tower_material.
    cbn [is_None bind]. now rewrite get_material_strict, H.
  - intros M items HSi HC.
    rewrite get_energy_supplied by reflexivity.
    now rewrite (eqb_false_of_neq _ _ HSi), (eqb_false_of_neq _ _ HC).
Qed.

(** X13. Two towers of one material, whose registers hold one reflection
    and whose angles for that material read the same, give one energy: the
    query of the second tower agrees with that of the first. *)
Theorem tower_energies_agree (self : LODCM) (M : string) :
  _get_material self 1 false = Ok (Some M) ->
  _get_material self 2 false = Ok (Some M) ->
  reflection_register self 1 M = reflection_register self 2 M ->
  th1_si self = th2_si self ->
  th1_c self = th2_c self ->
  get_first_tower_energy np_sin np_deg2rad wavelength_to_energy d_space
                         self None PyNone
  = get_second_tower_energy np_sin np_deg2rad wavelength_to_energy d_space
                            self None PyNone.
Proof.
  intros E1 E2 Hreg Hsi Hc.
  unfold get_first_tower_energy, get_second_tower_energy,
    get_first_tower_reflection, get_second_tower_reflection,
    get_first_tower_material, get_second_tower_material.
  cbn [is_None].
  rewrite (get_reflection_determined self 1 M true true E1).
  rewrite (get_reflection_determined self 2 M true true E2).
  rewrite (strict_of_soft self 1 M true E1), (strict_of_soft self 2 M true E2).
  rewrite Hreg, Hsi, Hc.
  now destruct (soft_1_label self M E1) as [[-> | ->] _].
Qed.

End MoreEnergyFacts.

Lemma get_energy_first_tower_only_witness :
  same_first_tower (xpp_lodcm "Si" "Si" "Si" true true true)
                   (sim_lodcm "Si" "Si" "C" false false true "A" "B") /\
  get_energy (fun x => x) (fun x => x) (fun x => x) (fun _ _ => Ok 3%float)
             (xpp_lodcm "Si" "Si" "Si" true true true) None PyNone
  = get_energy (fun x => x) (fun x => x) (fun x => x) (fun _ _ => Ok 3%float)
               (sim_lodcm "Si" "Si" "C" false false true "A" "B") None PyNone.
Proof.
  assert (H : same_first_tower (xpp_lodcm "Si" "Si" "Si" true true true)
                (sim_lodcm "Si" "Si" "C" false false true "A" "B"))
    by (repeat split).
  split; [exact H |].
  apply (get_energy_first_tower_only (fun x => x) (fun x => x) (fun x => x)
           (fun _ _ => Ok 3%float) _ _ None PyNone H).
Defined.

Lemma tower_energies_agree_witness :
  _get_material (xpp_lodcm "Si" "Si" "Si" true true true) 1 false = Ok (Some "Si") /\
  _get_material (xpp_lodcm "Si" "Si" "Si" true true true) 2 false = Ok (Some "Si") /\
  get_first_tower_energy (fun x => x) (fun x => x) (fun x => x)
    (fun _ _ => Ok 3%float) (xpp_lodcm "Si" "Si" "Si" true true true) None PyNone
  = get_second_tower_energy (fun x => x) (fun x => x) (fun x => x)
      (fun _ _ => Ok 3%float) (xpp_lodcm "Si" "Si" "Si" true true true) None PyNone.
Proof.
  split; [reflexivity |]. split; [reflexivity |].
  apply (tower_energies_agree (fun x => x) (fun x => x) (fun x => x)
           (fun _ _ => Ok 3%float) (xpp_lodcm "Si" "Si" "Si" true true true) "Si");
    reflexivity.
Defined.

(** ** More on the removal of the diagnostics *)

(** X14. Whatever was asked of the hardware before is kept, and the removal
    adds to it, in this order: a remove request for the imaging screen, the
    detector insert, the diode and the filter foil, none of them waiting
    and each with the caller's timeout; the registration of the callback if
    one is given; a single wait on the joined handle if waiting is asked
    for. The handle returned joins the handles of the four requests. *)
Theorem remove_dia_appends (self : LODCM) (moved_cb : option string)
  (timeout : option float) (wait : bool) (log : list event) :
  remove_dia self moved_cb timeout wait log =
  (AndStatus
     (AndStatus
        (AndStatus (AndStatus NullStatus (MoveStatus (List.length log)))
                   (MoveStatus (List.length log + 1)))
        (MoveStatus (List.length log + 2)))
     (MoveStatus (List.length log + 3)),
   (log ++
    [Remove yag timeout false; Remove dectris timeout false;
     Remove diode timeout false; Remove foil timeout false] ++
    match moved_cb with
    | Some cb =>
        [AddCallback
           (AndStatus
              (AndStatus
                 (AndStatus (AndStatus NullStatus (MoveStatus (List.length log)))
                            (MoveStatus (List.length log + 1)))
                 (MoveStatus (List.length log + 2)))
              (MoveStatus (List.length log + 3))) cb]
    | None => []
    end ++
    (if wait
     then [StatusWait
             (AndStatus
                (AndStatus
                   (AndStatus (AndStatus NullStatus (MoveStatus (List.length log)))
                              (MoveStatus (List.length log + 1)))
                   (MoveStatus (List.length log + 2)))
                (MoveStatus (List.length log + 3)))]
     else []))%list).
Proof.
  unfold remove_dia, seq, emit, ret. cbn [remove_each]. unfold seq, remove, ret.
  rewrite !length_app. cbn [List.length].
  replace (List.length log + 1 + 1)%nat with (List.length log + 2)%nat by lia.
  replace (List.length log + 2 + 1)%nat with (List.length log + 3)%nat by lia.
  destruct moved_cb, wait; rewrite <- ?app_assoc; cbn [app];
    rewrite ?app_nil_r; reflexivity.
Qed.

(** ** The prefixes of the constructor *)

(** A key that is no motor's prefix is handed on as it came. *)
Lemma fold_default_prefix_other (motors : list string) (kw : kwargs) (k : string) :
  (forall m, In m motors -> k <> m ++ "_prefix") ->
  fold_left default_prefix motors kw k = kw k.
Proof.
  revert kw. induction motors as [| m motors IH]; intros kw H; [reflexivity |].
  cbn [fold_left]. rewrite IH by (intros m' Hm'; apply H; now right).
  unfold default_prefix, kwargs_set.
  rewrite (eqb_false_of_neq k (m ++ "_prefix")); [reflexivity |].
  apply H. now left.
Qed.

(** Each of the twenty keys gets what was passed for it, or else the prefix
    of the table. *)
Lemma init_prefixes_at (kw : kwargs) (m : string) :
  In m init_motors ->
  init_prefixes kw (m ++ "_prefix") = py_or (kw (m ++ "_prefix")) (get_prefix m).
Proof.
  intros H. unfold init_motors in H. simpl in H.
  repeat (destruct H as [<- | H]; [vm_compute; reflexivity |]).
  destruct H.
Qed.

Lemma get_prefix_init_motors (m : string) :
  In m init_motors -> exists p, get_prefix m = Some p /\ p <> "".
Proof.
  intros H. unfold init_motors in H. simpl in H.
  repeat (destruct H as [<- | H];
          [eexists; split; [vm_compute; reflexivity | discriminate] |]).
  destruct H.
Qed.

Lemma py_or_idempotent (a b : option string) : py_or (py_or a b) b = py_or a b.
Proof.
  destruct a as [s |]; simpl.
  - destruct (String.eqb s "") eqn:E; simpl; [| now rewrite E].
    destruct b as [t |]; simpl; [| reflexivity].
    now destruct (String.eqb t "").
  - destruct b as [t |]; simpl; [| reflexivity].
    now destruct (String.eqb t "").
Qed.

(** X15. After the constructor's assignments each of its twenty motors has
    a prefix that is a non-empty string: the one passed for it when that is
    a non-empty string, the one of the motor table when nothing, [None] or
    the empty string was passed. Every other keyword argument is handed on
    as it came. *)
Theorem init_prefixes_defaults (kw : kwargs) (m : string) :
  In m init_motors ->
  (forall p, kw (m ++ "_prefix") = Some p -> p <> "" ->
     init_prefixes kw (m ++ "_prefix") = Some p) /\
  (kw (m ++ "_prefix") = None \/ kw (m ++ "_prefix") = Some "" ->
   init_prefixes kw (m ++ "_prefix") = get_prefix m) /\
  (exists p, init_prefixes kw (m ++ "_prefix") = Some p /\ p <> "") /\
  (forall k, (forall m', In m' init_motors -> k <> m' ++ "_prefix") ->
     init_prefixes kw k = kw k).
Proof.
  intros Hm. rewrite (init_prefixes_at kw m Hm).
  destruct (get_prefix_init_motors m Hm) as (q & Hq & Hne).
  split; [| split; [| split]].
  - intros p -> Hp. simpl. now rewrite (eqb_false_of_neq _ _ Hp).
  - intros [-> | ->]; reflexivity.
  - rewrite Hq. destruct (kw (m ++ "_prefix")) as [s |]; simpl.
    + destruct (String.eqb_spec s ""); [now exists q | now exists s].
    + now exists q.
  - intros k Hk. now apply fold_default_prefix_other.
Qed.

Lemma init_prefixes_defaults_witness :
  In "th1" init_motors /\
  init_prefixes (fun _ => None) ("th1" ++ "_prefix") = get_prefix "th1".
Proof.
  assert (H : In "th1" init_motors) by (simpl; tauto).
  split; [exact H |].
  apply (init_prefixes_defaults (fun _ => None) "th1" H). now left.
Defined.

(** X16. The defaulting of the prefixes is idempotent: keyword arguments
    that have been through it come out of a second pass unchanged. *)
Theorem init_prefixes_idempotent (kw : kwargs) (k : string) :
  init_prefixes (init_prefixes kw) k = init_prefixes kw k.
Proof.
  destruct (in_dec string_dec k (map (fun m => m ++ "_prefix") init_motors))
    as [Hin | Hout].
  - apply in_map_iff in Hin as (m & <- & Hm).
    rewrite (init_prefixes_at (init_prefixes kw) m Hm).
    rewrite (init_prefixes_at kw m Hm). apply py_or_idempotent.
  - unfold init_prefixes at 1. apply fold_default_prefix_other.
    intros m Hm ->. apply Hout. apply in_map_iff. now exists m.
Qed.

(** ** The filter foil and the hutch *)

Lemma prefix_empty (s : string) : String.prefix "" s = true.
Proof. now destruct s. Qed.

Lemma prefix_spec (sub s : string) :
  String.prefix sub s = true <-> exists b, s = sub ++ b.
Proof.
  revert s. induction sub as [| a sub IH]; intros s.
  - split; [intros _; now exists s | intros _; now destruct s].
  - destruct s as [| c s]; simpl.
    + split; [discriminate | intros [b Hb]; discriminate].
    + destruct (ascii_dec a c) as [<- | Hne].
      * rewrite IH. split; intros [b Hb]; exists b; congruence.
      * split; [discriminate | intros [b [= E _]]; congruence].
Qed.

(** The test is Python's [in]: true exactly when the string is made of
    something, the sought string, and something. *)
Lemma contains_spec (sub s : string) :
  contains sub s = true <-> exists a b, s = a ++ sub ++ b.
Proof.
  induction s as [| c s IH].
  - cbn [contains]. destruct (String.prefix sub "") eqn:E.
    + apply prefix_spec in E as [b Hb]. split; [| reflexivity].
      intros _. now exists "", b.
    + split; [discriminate |]. intros (a & b & H).
      destruct a; [| discriminate]. simpl in H.
      assert (String.prefix sub "" = true) by (apply prefix_spec; now exists b).
      congruence.
  - cbn [contains]. destruct (String.prefix sub (String c s)) eqn:E.
    + apply prefix_spec in E as [b Hb]. split; [| reflexivity].
      intros _. now exists "", b.
    + rewrite IH. split.
      * intros (a & b & ->). now exists (String c a), b.
      * intros (a & b & H). destruct a as [| c' a].
        -- simpl in H.
           assert (String.prefix sub (String c s) = true)
             by (apply prefix_spec; now exists b).
           congruence.
        -- injection H as _ ->. now exists a, b.
Qed.

(** Appending the foil's suffix to a prefix neither adds nor hides a hutch
    name. *)
Lemma contains_xpp_foil_prefix (prefix : string) :
  contains "XPP" (foil_prefix prefix) = contains "XPP" prefix.
Proof.
  unfold foil_prefix. induction prefix as [| c p IH]; [reflexivity |].
  cbn [append contains]. rewrite IH.
  replace (String.prefix "XPP" (String c (p ++ ":FOIL")))
    with (String.prefix "XPP" (String c p)); [reflexivity |].
  destruct p as [| c2 [| c3 rest]]; cbn [String.prefix append];
    repeat match goal with
      | |- context [ascii_dec ?x ?y] => destruct (ascii_dec x y); try congruence
      end; rewrite ?prefix_empty; reflexivity.
Qed.

Lemma contains_xcs_foil_prefix (prefix : string) :
  contains "XCS" (foil_prefix prefix) = contains "XCS" prefix.
Proof.
  unfold foil_prefix. induction prefix as [| c p IH]; [reflexivity |].
  cbn [append contains]. rewrite IH.
  replace (String.prefix "XCS" (String c (p ++ ":FOIL")))
    with (String.prefix "XCS" (String c p)); [reflexivity |].
  destruct p as [| c2 [| c3 rest]]; cbn [String.prefix append];
    repeat match goal with
      | |- context [ascii_dec ?x ?y] => destruct (ascii_dec x y); try congruence
      end; rewrite ?prefix_empty; reflexivity.
Qed.


(** ** The status report *)

Lemma length_append (a b : string) :
  String.length (a ++ b) = (String.length a + String.length b)%nat.
Proof. induction a as [| c a IH]; simpl; [reflexivity | now rewrite IH]. Qed.

Lemma length_spaces (n : nat) : String.length (spaces n) = n.
Proof. induction n as [| n IH]; simpl; [reflexivity | now rewrite IH]. Qed.

(** X18. A row of the status table keeps its three fields whole, the first
    followed and the other two preceded by spaces only; it is never
    narrower than the rule, and it is exactly as wide as the rule when the
    first field has at most 15 characters and the other two at most 25. *)
Theorem form_width (left_str center_str right_str : string) :
  (exists n1 n2 n3,
     form left_str center_str right_str
     = left_str ++ spaces n1 ++ spaces n2 ++ center_str
       ++ spaces n3 ++ right_str) /\
  String.length (form left_str center_str right_str)
    = (Nat.max 15 (String.length left_str)
       + Nat.max 25 (String.length center_str)
       + Nat.max 25 (String.length right_str))%nat /\
  (String.length rule <= String.length (form left_str center_str right_str))%nat /\
  ((String.length left_str <= 15)%nat ->
   (String.length center_str <= 25)%nat ->
   (String.length right_str <= 25)%nat ->
   String.length (form left_str center_str right_str) = String.length rule).
Proof.
  assert (Hlen : String.length (form left_str center_str right_str)
                 = (Nat.max 15 (String.length left_str)
                    + Nat.max 25 (String.length center_str)
                    + Nat.max 25 (String.length right_str))%nat).
  { unfold form, ljust, rjust. rewrite !length_append, !length_spaces. lia. }
  assert (Hrule : String.length rule = 65%nat) by reflexivity.
  split; [| split; [| split]].
  - exists (15 - String.length left_str)%nat,
      (25 - String.length center_str)%nat,
      (25 - String.length right_str)%nat.
    unfold form, ljust, rjust. now rewrite !append_assoc.
  - exact Hlen.
  - rewrite Hlen, Hrule. lia.
  - intros Hl Hc Hr. rewrite Hlen, Hrule. lia.
Qed.

Section StatusFacts.

Variables np_sin np_deg2rad wavelength_to_energy : float -> float.
Variable d_space : option string -> pyval -> result float.

Local Abbreviation header :=
  (format_status_header np_sin np_deg2rad wavelength_to_energy d_space).

(** X19. The head of the status report fails where the towers disagree and
    makes do where the energy fails. Towers whose materials differ, one of
    them undetermined or not, stop it with the error of the material query;
    two towers of one material whose registers differ stop it with the
    error of the reflection query. Two undetermined towers give a head that
    reads Unknown for the configuration and for the energy, with no
    reflection. Two towers of one material whose registers agree give a
    head that reads Diamond or Silicon, whether or not the energy can be
    had. *)
Theorem format_status_header_outcomes (self : LODCM) (prefix : string) :
  (forall m_1 m_2,
     _get_material self 1 false = Ok m_1 ->
     _get_material self 2 false = Ok m_2 ->
     m_1 <> m_2 -> header self prefix = Raise mismatch) /\
  (forall M,
     _get_material self 1 false = Ok (Some M) ->
     _get_material self 2 false = Ok (Some M) ->
     reflection_register self 1 M <> reflection_register self 2 M ->
     header self prefix = Raise (ValueError "Invalid Crystal Arrangement")) /\
  (_get_material self 1 false = Ok None ->
   _get_material self 2 false = Ok None ->
   exists h, header self prefix = Ok h /\
             configuration h = "Unknown" /\ energy h = EnergyUnknown /\
             ref h = PyNone) /\
  (forall M,
     _get_material self 1 false = Ok (Some M) ->
     _get_material self 2 false = Ok (Some M) ->
     reflection_register self 1 M = reflection_register self 2 M ->
     exists h, header self prefix = Ok h /\
               configuration h = (if String.eqb M "C" then "Diamond" else "Silicon") /\
               ref h = PyTuple (reflection_register self 1 M)).
Proof.
  unfold format_status_header.
  split; [| split; [| split]].
  - intros m_1 m_2 E1 E2 Hne.
    rewrite (get_material_of_results self false m_1 m_2 E1 E2).
    now rewrite (material_eqb_neq _ _ Hne).
  - intros M E1 E2 Hreg.
    rewrite (get_material_of_results self false _ _ E1 E2), material_eqb_refl.
    cbn [bind].
    destruct (get_reflection_determined_pair self M M false E1 E2) as [_ Hne].
    now rewrite (Hne Hreg).
  - intros E1 E2.
    rewrite (get_material_of_results self false _ _ E1 E2). cbn [material_eqb bind].
    rewrite (get_energy_undetermined np_sin np_deg2rad wavelength_to_energy
               d_space self E1).
    unfold get_reflection, get_first_tower_reflection, get_second_tower_reflection.
    rewrite (get_reflection_undetermined self 1 true false E1).
    rewrite (get_reflection_undetermined self 2 true false E2).
    cbn [bind pyval_eqb negb]. eexists. repeat split.
  - intros M E1 E2 Hreg.
    rewrite (get_material_of_results self false _ _ E1 E2), material_eqb_refl.
    cbn [bind].
    destruct (get_reflection_determined_pair self M M false E1 E2) as [Heq _].
    rewrite (Heq Hreg). cbn [bind]. eexists. split; [reflexivity |].
    split; [| reflexivity]. cbn [configuration material_eqb].
    now destruct (soft_1_label self M E1) as [[-> | ->] _].
Qed.

(** X20. The hutch the status report names is the hutch whose foils the
    device's filter foil carries: the report reads XPP exactly when the foil
    has the XPP in-states, XCS exactly when it has the XCS ones, and names
    no hutch exactly when the foil has no in-state at all. *)
Theorem hutch_agrees_with_foil (self : LODCM) (prefix : string) (h : status_header) :
  header self prefix = Ok h ->
  (hutch h = "XPP " <-> In "Zn" (Foil.in_states (foil_prefix prefix))) /\
  (hutch h = "XCS " <-> In "Ge" (Foil.in_states (foil_prefix prefix))) /\
  (hutch h = "" <-> Foil.in_states (foil_prefix prefix) = []).
Proof.
  unfold format_status_header, Foil.in_states.
  rewrite contains_xpp_foil_prefix, contains_xcs_foil_prefix.
  destruct (get_material self false) as [m |]; [| discriminate]. cbn [bind].
  destruct (get_reflection self true false) as [r |]; [| discriminate].
  cbn [bind]. intros [= <-]. cbn [hutch].
  destruct (contains "XPP" prefix); [| destruct (contains "XCS" prefix)];
    simpl; repeat split; intros; try discriminate; intuition discriminate.
Qed.

End StatusFacts.

Lemma hutch_agrees_with_foil_witness :
  format_status_header (fun x => x) (fun x => x) (fun x => x)
    (fun _ _ => Ok 3%float) (xpp_lodcm "C" "C" "C" true true true) "XCS:LODCM"
  = Ok {| hutch := "XCS "; configuration := "Diamond";
          energy := EnergyValue (2 * 20 * 3 / 1000)%float;
          ref := PyTuple [1; 1; 1]%Z |} /\
  ("XCS " = "XCS " <-> In "Ge" (Foil.in_states (foil_prefix "XCS:LODCM"))).
Proof.
  split; [reflexivity |].
  apply (hutch_agrees_with_foil (fun x => x) (fun x => x) (fun x => x)
           (fun _ _ => Ok 3%float) (xpp_lodcm "C" "C" "C" true true true)
           "XCS:LODCM"
           {| hutch := "XCS "; configuration := "Diamond";
              energy := EnergyValue (2 * 20 * 3 / 1000)%float;
              ref := PyTuple [1; 1; 1]%Z |}).
  reflexivity.
Defined.
